(** * Greenhouse backend: sensor ingestion, device commands, health check

    A shallow embedding of the TypeScript services, controllers and
    validation middleware of the IoT greenhouse backend, and the
    properties of its specification proved (or refuted) on that embedding.

    Asynchronous code is embedded as a program tree [Prog]: every call that
    leaves the process (a TypeORM repository call, a raw query, the MQTT
    client, the clock) is an event whose result, a value or a thrown
    exception, is given to the continuation.  [run] executes a tree against
    a [World]; [interleave] executes two trees under a schedule, yielding at
    events, which is how two requests race.

    The [World] holds the two tables, the uuid counter of the database, the
    broker client of [mqttService], and what the environment decides: the
    faults of the database connection, call by call, and the readings of
    the clock.  The table of sensor readings enforces the uniqueness
    constraint on (deviceId, timestamp) and the width of its deviceId
    column, character varying(255), of the entity and the migration.

    [Date.parse] is a parameter of the sensor route: what it accepts beyond
    the ISO format is up to the engine.  [toISOString] and the JSON text of
    the MQTT payload follow ECMA-262; [iso_parse] reads the ISO format with
    an explicit offset and instantiates [Date.parse] in the examples. *)

From Stdlib Require Import ZArith List String Ascii Bool Lia.
From Stdlib Require Import Sorting.Permutation Sorting.Sorted.
From Stdlib Require Import Floats.PrimFloat.
Import ListNotations.
Open Scope string_scope.
Open Scope Z_scope.
Set Warnings "-register-all".

(** ** JavaScript values *)

(** A request body after [express.json()]: a JSON value.  Numbers are IEEE
    doubles; an object is the list of its own properties. *)
Inductive JsValue : Type :=
| JNull
| JBool (b : bool)
| JNum (x : float)
| JStr (s : string)
| JArr (items : list JsValue)
| JObj (fields : list (string * JsValue)).

(** Property access [obj[key]]; [None] is [undefined]. *)
Fixpoint get_field (key : string) (fields : list (string * JsValue)) : option JsValue :=
  match fields with
  | [] => None
  | (k, v) :: rest => if String.eqb k key then Some v else get_field key rest
  end.

(** What a [throw] carries: an [Error] instance with its [message], or any
    other value ([error instanceof Error] is false for it). *)
Inductive JsThrown : Type :=
| ErrorObj (message : string)
| NonError (v : JsValue).

Definition instanceof_Error (e : JsThrown) : bool :=
  match e with ErrorObj _ => true | NonError _ => false end.

(** [error.message], read only where [instanceof_Error] holds. *)
Definition error_message (e : JsThrown) : string :=
  match e with ErrorObj m => m | NonError _ => EmptyString end.

(** [String.prototype.includes]. *)
Fixpoint includes (sub s : string) : bool :=
  if String.prefix sub s then true
  else match s with
       | EmptyString => false
       | String _ rest => includes sub rest
       end.

(** ** Entities *)

(** A generated uuid; the database draws them from a counter here. *)
Definition Uuid := N.

(** A JavaScript time value: milliseconds since the epoch. *)
Definition TimeValue := Z.

(** A [Date] object: [None] is the Invalid Date. *)
Definition JsDate := option TimeValue.

Record SensorReading : Type := mkSensorReading {
  sr_id : Uuid;
  sr_deviceId : string;
  sr_timestamp : TimeValue;
  sr_temperature : float;
  sr_humidity : float;
  sr_battery : option float;
  sr_raw : option JsValue;
  sr_createdAt : TimeValue
}.

Inductive CommandType : Type := ON | OFF.

Inductive CommandStatus : Type := QUEUED | PUBLISHED | ERROR.

Definition CommandType_value (c : CommandType) : string :=
  match c with ON => "ON" | OFF => "OFF" end.

Definition CommandStatus_value (s : CommandStatus) : string :=
  match s with QUEUED => "queued" | PUBLISHED => "published" | ERROR => "error" end.

Record DeviceCommand : Type := mkDeviceCommand {
  dc_id : Uuid;
  dc_deviceId : string;
  dc_command : CommandType;
  dc_status : CommandStatus;
  dc_errorMessage : option string;
  dc_createdAt : TimeValue
}.

(** The object [repository.create] returns for a sensor reading: no id and
    no creation instant yet. *)
Record SensorReadingDraft : Type := mkSensorReadingDraft {
  sd_deviceId : string;
  sd_timestamp : JsDate;
  sd_temperature : float;
  sd_humidity : float;
  sd_battery : option float
}.

(** The [DeviceCommand] object the service holds: [repository.create]
    leaves [id] and [createdAt] undefined, [save] fills them in. *)
Record DeviceCommandObj : Type := mkDeviceCommandObj {
  co_id : option Uuid;
  co_deviceId : string;
  co_command : CommandType;
  co_status : CommandStatus;
  co_errorMessage : option string;
  co_createdAt : option TimeValue
}.

(** The mqtt.js client held by [mqttService]: its [connected] flag, and
    what the library's own [publish] does when called (it may throw). *)
Record MqttClient : Type := mkMqttClient {
  connected : bool;
  publish_throws : option JsThrown
}.

(** ** The world outside the process *)

Record World : Type := mkWorld {
  sensor_readings : list SensorReading;
  device_commands : list DeviceCommand;
  next_uuid : Uuid;
  (* one entry per database call still to come: [Some m] makes that call
     throw [Error(m)] without touching the tables *)
  db_faults : list (option string);
  (* successive readings of the clock, by the process or by the database *)
  clock : list TimeValue;
  (* [mqttService.client] *)
  mqtt_client : option MqttClient;
  (* messages handed to the broker client, latest first *)
  published : list (string * string)
}.

(** ** Programs *)

(** The result an awaited call hands back: a value or a thrown exception. *)
Inductive Result (X : Type) : Type :=
| Ok (x : X)
| Err (e : JsThrown).
Arguments Ok {X} x.
Arguments Err {X} e.

(** The calls that leave the process. *)
Inductive Event : Type -> Type :=
(* repository.findOne({ where: { deviceId, timestamp } }) on SensorReading *)
| SensorFindOne (deviceId : string) (timestamp : JsDate) : Event (option SensorReading)
(* repository.save(newReading) on SensorReading *)
| SensorSave (draft : SensorReadingDraft) : Event SensorReading
(* repository.save(command) on DeviceCommand: insert without id, update with *)
| CommandSave (c : DeviceCommandObj) : Event DeviceCommandObj
(* AppDataSource.query(sql) *)
| DataSourceQuery (sql : string) : Event unit
(* reading the field mqttService.client *)
| ReadClient : Event (option MqttClient)
(* client.publish(topic, message) of mqtt.js *)
| ClientPublish (topic message : string) : Event unit
(* Date.now() and new Date() *)
| DateNow : Event TimeValue.

Inductive Prog (A : Type) : Type :=
| Ret (a : A)
| Throw (e : JsThrown)
| Vis {X : Type} (ev : Event X) (k : Result X -> Prog A).
Arguments Ret {A} a.
Arguments Throw {A} e.
Arguments Vis {A X} ev k.

Fixpoint bind {A B : Type} (p : Prog A) (f : A -> Prog B) : Prog B :=
  match p with
  | Ret a => f a
  | Throw e => Throw e
  | Vis ev k => Vis ev (fun r => bind (k r) f)
  end.

(** [try { p } catch (error) { h error }]. *)
Fixpoint try_catch {A : Type} (p : Prog A) (h : JsThrown -> Prog A) : Prog A :=
  match p with
  | Ret a => Ret a
  | Throw e => h e
  | Vis ev k => Vis ev (fun r => try_catch (k r) h)
  end.

(** Calling out and awaiting the answer: a rejection is rethrown here. *)
Definition perform {X : Type} (ev : Event X) : Prog X :=
  Vis ev (fun r => match r with Ok x => Ret x | Err e => Throw e end).

Declare Scope prog_scope.
Delimit Scope prog_scope with prog.
Notation "x <- p ;; q" := (bind p (fun x => q))
  (at level 61, p at next level, right associativity) : prog_scope.
Notation "p ;;; q" := (bind p (fun _ => q))
  (at level 61, right associativity) : prog_scope.

(** ** The storage and messaging gateways *)

Definition same_key (deviceId : string) (t : TimeValue) (r : SensorReading) : bool :=
  String.eqb (sr_deviceId r) deviceId && Z.eqb (sr_timestamp r) t.

(** Takes the next reading of the clock (0 once the readings run out). *)
Definition tick (w : World) : TimeValue * World :=
  (hd 0 (clock w),
   mkWorld (sensor_readings w) (device_commands w) (next_uuid w)
           (db_faults w) (tl (clock w)) (mqtt_client w) (published w)).

(** Takes the fault, if any, scheduled for the database call being made. *)
Definition next_fault (w : World) : option string * World :=
  (hd None (db_faults w),
   mkWorld (sensor_readings w) (device_commands w) (next_uuid w)
           (tl (db_faults w)) (clock w) (mqtt_client w) (published w)).

Definition set_sensor_readings (l : list SensorReading) (u : Uuid) (w : World) : World :=
  mkWorld l (device_commands w) u (db_faults w) (clock w) (mqtt_client w) (published w).

Definition set_device_commands (l : list DeviceCommand) (u : Uuid) (w : World) : World :=
  mkWorld (sensor_readings w) l u (db_faults w) (clock w) (mqtt_client w) (published w).

Definition add_published (topic message : string) (w : World) : World :=
  mkWorld (sensor_readings w) (device_commands w) (next_uuid w) (db_faults w)
          (clock w) (mqtt_client w) ((topic, message) :: published w).

Definition dq : string := String "034"%char EmptyString.

(** The constraint of migration AddIoTGreenhouseEntities on
    ("deviceId", "timestamp"), as PostgreSQL reports its violation. *)
Definition unique_violation_message : string :=
  "duplicate key value violates unique constraint " ++ dq
  ++ "UQ_sensor_readings_deviceId_timestamp" ++ dq.

Definition invalid_date_message : string :=
  "invalid input syntax for type timestamp with time zone".

Definition obj_of_command (d : DeviceCommand) : DeviceCommandObj :=
  mkDeviceCommandObj (Some (dc_id d)) (dc_deviceId d) (dc_command d)
                     (dc_status d) (dc_errorMessage d) (Some (dc_createdAt d)).

Definition has_id (id : Uuid) (d : DeviceCommand) : bool := N.eqb (dc_id d) id.

(** The database side of each call, once the connection carried it. *)
Definition db_findOne (deviceId : string) (timestamp : JsDate) (w : World)
  : Result (option SensorReading) * World :=
  match timestamp with
  | None => (Err (ErrorObj invalid_date_message), w)
  | Some t => (Ok (find (same_key deviceId t) (sensor_readings w)), w)
  end.

(** The column "deviceId" character varying(255) of [sensor_readings]
    (entity SensorReading, migration AddIoTGreenhouseEntities): a value of
    at most 255 characters is stored as it is; a longer one is refused,
    unless the characters after the 255th are all spaces, which PostgreSQL
    then cuts off. *)
Definition fits_deviceId (deviceId : string) : bool :=
  (String.length deviceId <=? 255)%nat.

Fixpoint all_spaces (s : string) : bool :=
  match s with
  | EmptyString => true
  | String c rest => Ascii.eqb c " " && all_spaces rest
  end.

Definition character_varying_255 (value : string) : option string :=
  if fits_deviceId value then Some value
  else if all_spaces (substring 255 (String.length value - 255) value)
       then Some (substring 0 255 value)
       else None.

Definition value_too_long_message : string :=
  "value too long for type character varying(255)".

(** The insert [repository.save] makes for a new reading.  The row holds
    the [deviceId] as the column stores it; the entity handed back is the
    one passed in, with the generated [id] and [createdAt] filled in.  A
    row that has the very key of the draft is a violation of the
    uniqueness constraint; no stored [deviceId] is longer than the column,
    so for a value the column refuses there is no such row. *)
Definition db_saveReading (d : SensorReadingDraft) (w : World)
  : Result SensorReading * World :=
  match sd_timestamp d with
  | None => (Err (ErrorObj invalid_date_message), w)
  | Some t =>
      if existsb (same_key (sd_deviceId d) t) (sensor_readings w)
      then (Err (ErrorObj unique_violation_message), w)
      else
        match character_varying_255 (sd_deviceId d) with
        | None => (Err (ErrorObj value_too_long_message), w)
        | Some stored =>
            if existsb (same_key stored t) (sensor_readings w)
            then (Err (ErrorObj unique_violation_message), w)
            else
              let (now, w1) := tick w in
              let row := mkSensorReading (next_uuid w1) stored t (sd_temperature d)
                                         (sd_humidity d) (sd_battery d) None now in
              let r := mkSensorReading (next_uuid w1) (sd_deviceId d) t
                                       (sd_temperature d) (sd_humidity d)
                                       (sd_battery d) None now in
              (Ok r,
               set_sensor_readings (sensor_readings w1 ++ [row]) (N.succ (next_uuid w1))
                                   w1)
        end
  end.

(** [save] of a command object: an object without id, or whose id no row
    has, is inserted ([createdAt] defaults to the database's now());
    otherwise the row with that id is overwritten.  A refusal of the row
    by the table itself (a [deviceId] beyond the 255 characters of its
    column) is not told apart from the other failures of a call: it is
    one of the faults [db_faults] schedules. *)
Definition db_insertCommand (id : Uuid) (next : Uuid) (c : DeviceCommandObj) (w : World)
  : Result DeviceCommandObj * World :=
  let (now, w1) := tick w in
  let d := mkDeviceCommand id (co_deviceId c) (co_command c) (co_status c)
             (co_errorMessage c)
             (match co_createdAt c with Some t => t | None => now end) in
  (Ok (obj_of_command d), set_device_commands (device_commands w1 ++ [d]) next w1).

Definition db_saveCommand (c : DeviceCommandObj) (w : World)
  : Result DeviceCommandObj * World :=
  match co_id c with
  | None => db_insertCommand (next_uuid w) (N.succ (next_uuid w)) c w
  | Some id =>
      match find (has_id id) (device_commands w) with
      | None => db_insertCommand id (next_uuid w) c w
      | Some old =>
          let d := mkDeviceCommand id (co_deviceId c) (co_command c) (co_status c)
                     (co_errorMessage c)
                     (match co_createdAt c with Some t => t | None => dc_createdAt old end) in
          (Ok (obj_of_command d),
           set_device_commands
             (map (fun row => if has_id id row then d else row) (device_commands w))
             (next_uuid w) w)
      end
  end.

(** A database call: the connection may fail it before the database sees it. *)
Definition db_call {X : Type} (op : World -> Result X * World) (w : World)
  : Result X * World :=
  match next_fault w with
  | (Some m, w1) => (Err (ErrorObj m), w1)
  | (None, w1) => op w1
  end.

Definition handle {X : Type} (ev : Event X) (w : World) : Result X * World :=
  match ev in Event T return Result T * World with
  | SensorFindOne deviceId timestamp => db_call (db_findOne deviceId timestamp) w
  | SensorSave draft => db_call (db_saveReading draft) w
  | CommandSave c => db_call (db_saveCommand c) w
  | DataSourceQuery _ => db_call (fun w1 => (Ok tt, w1)) w
  | ReadClient => (Ok (mqtt_client w), w)
  | ClientPublish topic message =>
      match mqtt_client w with
      | Some c =>
          match publish_throws c with
          | Some e => (Err e, w)
          | None => (Ok tt, add_published topic message w)
          end
      | None =>
          (Err (ErrorObj "Cannot read properties of null (reading 'publish')"), w)
      end
  | DateNow => let (t, w1) := tick w in (Ok t, w1)
  end.

(** What a program came to. *)
Inductive Outcome (A : Type) : Type :=
| Returned (a : A)
| Threw (e : JsThrown).
Arguments Returned {A} a.
Arguments Threw {A} e.

Fixpoint run {A : Type} (p : Prog A) (w : World) : Outcome A * World :=
  match p with
  | Ret a => (Returned a, w)
  | Throw e => (Threw e, w)
  | Vis ev k => let (r, w1) := handle ev w in run (k r) w1
  end.

(** One event of a program. *)
Definition step {A : Type} (p : Prog A) (w : World) : Prog A * World :=
  match p with
  | Vis ev k => let (r, w1) := handle ev w in (k r, w1)
  | _ => (p, w)
  end.

(** Two requests in flight: [true] lets the first take a step, [false] the
    second; when the schedule ends the first runs to its end, then the
    second. *)
Fixpoint interleave {A B : Type} (sched : list bool) (p : Prog A) (q : Prog B) (w : World)
  : Outcome A * Outcome B * World :=
  match sched with
  | [] =>
      let (a, w1) := run p w in
      let (b, w2) := run q w1 in
      (a, b, w2)
  | true :: rest => let (p1, w1) := step p w in interleave rest p1 q w1
  | false :: rest => let (q1, w1) := step q w in interleave rest p q1 w1
  end.

(** ** Built-ins of the language *)

Definition digit_char (d : Z) : ascii := ascii_of_nat (48 + Z.to_nat (d mod 10)).

(** The last [n] decimal digits of [x], most significant first. *)
Fixpoint pad (n : nat) (x : Z) (tail : string) : string :=
  match n with
  | O => tail
  | S n' => pad n' (x / 10) (String (digit_char x) tail)
  end.

Definition msPerDay : Z := 86400000.

(** The civil date (year, month 1-12, day 1-31) of a day number counted
    from 1970-01-01, in the proleptic Gregorian calendar. *)
Definition civil_from_days (days : Z) : Z * Z * Z :=
  let z := days + 719468 in
  let era := z / 146097 in
  let doe := z - era * 146097 in
  let yoe := (doe - doe / 1460 + doe / 36524 - doe / 146096) / 365 in
  let doy := doe - (365 * yoe + yoe / 4 - yoe / 100) in
  let mp := (5 * doy + 2) / 153 in
  let d := doy - (153 * mp + 2) / 5 + 1 in
  let m := if mp <? 10 then mp + 3 else mp - 9 in
  let y := yoe + era * 400 + (if m <=? 2 then 1 else 0) in
  (y, m, d).

Definition days_from_civil (y m d : Z) : Z :=
  let y' := if m <=? 2 then y - 1 else y in
  let era := y' / 400 in
  let yoe := y' - era * 400 in
  let doy := (153 * (if 2 <? m then m - 3 else m + 9) + 2) / 5 + d - 1 in
  let doe := yoe * 365 + yoe / 4 - yoe / 100 + doy in
  era * 146097 + doe - 719468.

(** [Date.prototype.toISOString] of a valid time value:
    YYYY-MM-DDTHH:mm:ss.sssZ, the year with a sign and six digits when it
    is outside 0..9999. *)
Definition toISOString (t : TimeValue) : string :=
  let '(y, m, d) := civil_from_days (t / msPerDay) in
  let ms := t mod msPerDay in
  let rest :=
    String "-" (pad 2 m (String "-" (pad 2 d (String "T"
      (pad 2 (ms / 3600000) (String ":" (pad 2 (ms / 60000 mod 60) (String ":"
        (pad 2 (ms / 1000 mod 60) (String "." (pad 3 (ms mod 1000) "Z"))))))))))) in
  if (0 <=? y) && (y <=? 9999) then pad 4 y rest
  else if y <? 0 then String "-" (pad 6 (- y) rest)
  else String "+" (pad 6 y rest).

Definition hex_char (d : Z) : ascii :=
  if d <? 10 then ascii_of_nat (48 + Z.to_nat d) else ascii_of_nat (87 + Z.to_nat d).

(** [JSON.stringify] of a string: QuoteJSONString. *)
Fixpoint quote_chars (s : string) : string :=
  match s with
  | EmptyString => EmptyString
  | String c rest =>
      let n := Z.of_nat (nat_of_ascii c) in
      (if n =? 34 then String "\" dq
       else if n =? 92 then "\\"
       else if n =? 8 then "\b"
       else if n =? 9 then "\t"
       else if n =? 10 then "\n"
       else if n =? 12 then "\f"
       else if n =? 13 then "\r"
       else if n <? 32 then
         "\u00" ++ String (hex_char (n / 16)) (String (hex_char (n mod 16)) EmptyString)
       else String c EmptyString)
      ++ quote_chars rest
  end.

Definition JSON_quote (s : string) : string := dq ++ quote_chars s ++ dq.

(** One ECMAScript date-time string per instant and offset:
    YYYY-MM-DDTHH:mm:ss, an optional .sss, then Z or +HH:mm or -HH:mm.
    Every engine's [Date.parse] reads these alike; this reader accepts
    nothing else. *)
Definition digit_of (c : ascii) : option Z :=
  let n := Z.of_nat (nat_of_ascii c) in
  if (48 <=? n) && (n <=? 57) then Some (n - 48) else None.

Fixpoint take_digits (n : nat) (acc : Z) (s : string) : option (Z * string) :=
  match n with
  | O => Some (acc, s)
  | S n' =>
      match s with
      | EmptyString => None
      | String c rest =>
          match digit_of c with
          | Some d => take_digits n' (10 * acc + d) rest
          | None => None
          end
      end
  end.

Definition expect (c : ascii) (s : string) : option string :=
  match s with
  | String c' rest => if Ascii.eqb c c' then Some rest else None
  | EmptyString => None
  end.

Definition obind {A B : Type} (o : option A) (f : A -> option B) : option B :=
  match o with Some a => f a | None => None end.

Definition parse_offset (s : string) : option Z :=
  match s with
  | String "Z" EmptyString => Some 0
  | String sign rest =>
      obind (if Ascii.eqb sign "+" then Some 1
             else if Ascii.eqb sign "-" then Some (-1) else None) (fun sg =>
      obind (take_digits 2 0 rest) (fun '(h, s1) =>
      obind (expect ":" s1) (fun s2 =>
      obind (take_digits 2 0 s2) (fun '(mi, s3) =>
      match s3 with
      | EmptyString =>
          if (h <=? 23) && (mi <=? 59) then Some (sg * (h * 60 + mi) * 60000) else None
      | _ => None
      end))))
  | EmptyString => None
  end.

Definition iso_parse (s : string) : JsDate :=
  obind (take_digits 4 0 s) (fun '(y, s1) =>
  obind (expect "-" s1) (fun s2 =>
  obind (take_digits 2 0 s2) (fun '(mo, s3) =>
  obind (expect "-" s3) (fun s4 =>
  obind (take_digits 2 0 s4) (fun '(d, s5) =>
  obind (expect "T" s5) (fun s6 =>
  obind (take_digits 2 0 s6) (fun '(h, s7) =>
  obind (expect ":" s7) (fun s8 =>
  obind (take_digits 2 0 s8) (fun '(mi, s9) =>
  obind (expect ":" s9) (fun s10 =>
  obind (take_digits 2 0 s10) (fun '(sec, s11) =>
  obind (match expect "." s11 with
         | Some s12 => take_digits 3 0 s12
         | None => Some (0, s11)
         end) (fun '(ms, s13) =>
  obind (parse_offset s13) (fun off =>
  if (1 <=? mo) && (mo <=? 12) && (1 <=? d) && (d <=? 31)
     && (h <=? 23) && (mi <=? 59) && (sec <=? 59)
  then Some (days_from_civil y mo d * msPerDay
             + h * 3600000 + mi * 60000 + sec * 1000 + ms - off)
  else None))))))))))))).

(** The calendar year a time value falls in. *)
Definition year_of (t : TimeValue) : Z := fst (fst (civil_from_days (t / msPerDay))).

(** ** HTTP responses *)

Record Detail : Type := mkDetail { field : string; detail_message : string }.

Record CommandView : Type := mkCommandView {
  cv_id : option Uuid;
  cv_deviceId : string;
  cv_command : CommandType;
  cv_status : CommandStatus;
  cv_createdAt : option TimeValue
}.

Inductive ConnStatus : Type := Connected | Disconnected.

Inductive ServiceStatus : Type := ServiceOk | ServiceDegraded.

Record DbHealth : Type := mkDbHealth {
  db_status : ConnStatus;
  latency_ms : Z;
  db_error : option string
}.

Record MqttHealth : Type := mkMqttHealth {
  mqtt_status : ConnStatus;
  mqtt_error : option string
}.

(** The object literals the controllers and the middleware pass to
    [res.json]. *)
Inductive ResponseBody : Type :=
| SensorBody (success : bool) (message : string) (id : Uuid) (data : SensorReading)
| ValidationBody (success : bool) (error : string) (details : list Detail)
| ErrorBody (success : bool) (error : string) (message : option string)
            (status : option string)
| CommandBody (success : bool) (message : string) (status : CommandStatus)
              (data : CommandView)
| HealthBody (service : ServiceStatus) (db : DbHealth) (mqtt : MqttHealth)
| HealthFailBody (service : ServiceStatus) (error : string) (message : string).

Record Response : Type := mkResponse {
  http_status : Z;
  body : ResponseBody
}.

(** ** Validation middleware *)

Record ZodIssue : Type := mkZodIssue {
  code : string;
  path : list string;
  issue_message : string
}.

(** What [schema.parse] came to. *)
Inductive ParseOutcome (D : Type) : Type :=
| Parsed (d : D)
| ThrewZodError (issues : list ZodIssue)
| ThrewOther (e : JsThrown).
Arguments Parsed {D} d.
Arguments ThrewZodError {D} issues.
Arguments ThrewOther {D} e.

(** [issue.path.join('.')]. *)
Fixpoint join_path (p : list string) : string :=
  match p with
  | [] => EmptyString
  | [x] => x
  | x :: rest => x ++ "." ++ join_path rest
  end.

Definition detail_of_issue (issue : ZodIssue) : Detail :=
  mkDetail (join_path (path issue)) (issue_message issue).

(** [validate(schema)]: the middleware; [next] is the rest of the route. *)
Definition validate {D : Type} (schema : JsValue -> ParseOutcome D)
    (req_body : JsValue) (next : D -> Prog Response) : Prog Response :=
  match schema req_body with
  | Parsed d => next d
  | ThrewZodError issues =>
      Ret (mkResponse 400
             (ValidationBody false "Validation failed" (map detail_of_issue issues)))
  | ThrewOther _ =>
      Ret (mkResponse 500
             (ErrorBody false "Internal server error during validation" None None))
  end.

(** *** zod's primitive schemas *)

Definition received (v : option JsValue) : string :=
  match v with
  | None => "undefined"
  | Some JNull => "null"
  | Some (JBool _) => "boolean"
  | Some (JNum x) => if PrimFloat.is_nan x then "nan" else "number"
  | Some (JStr _) => "string"
  | Some (JArr _) => "array"
  | Some (JObj _) => "object"
  end.

Definition invalid_type (expected : string) (v : option JsValue) (p : list string) : ZodIssue :=
  mkZodIssue "invalid_type" p
    (match v with
     | None => "Required"
     | Some _ => "Expected " ++ expected ++ ", received " ++ received v
     end).

(** [z.string()] followed by checks given as a function to issues. *)
Definition z_string (checks : string -> list string -> list ZodIssue)
    (v : option JsValue) (p : list string) : option string * list ZodIssue :=
  match v with
  | Some (JStr s) => (Some s, checks s p)
  | _ => (None, [invalid_type "string" v p])
  end.

(** [z.number()] followed by checks. *)
Definition z_number (checks : float -> list string -> list ZodIssue)
    (v : option JsValue) (p : list string) : option float * list ZodIssue :=
  match v with
  | Some (JNum x) =>
      if PrimFloat.is_nan x then (None, [invalid_type "number" v p])
      else (Some x, checks x p)
  | _ => (None, [invalid_type "number" v p])
  end.

(** [.min(n, message)] on a string: its length is at least [n]. *)
Definition string_min (n : nat) (message : string) (s : string) (p : list string)
  : list ZodIssue :=
  if Nat.ltb (String.length s) n then [mkZodIssue "too_small" p message] else [].

(** [.min(n, message)] on a number. *)
Definition number_min (n : float) (message : string) (x : float) (p : list string)
  : list ZodIssue :=
  if PrimFloat.ltb x n then [mkZodIssue "too_small" p message] else [].

(** [.refine(check, { message })]. *)
Definition refine {T : Type} (check : T -> bool) (message : string) (x : T) (p : list string)
  : list ZodIssue :=
  if check x then [] else [mkZodIssue "custom" p message].

Definition no_checks {T : Type} (_ : T) (_ : list string) : list ZodIssue := [].

(** ** Sensor ingestion *)

(** The validated body of POST /sensor-data. *)
Record SensorData : Type := mkSensorData {
  device_id : string;
  timestamp : string;
  temperature : float;
  humidity : float;
  battery : option float
}.

Record SensorResult : Type := mkSensorResult {
  isNew : bool;
  result_id : Uuid;
  result_data : SensorReading
}.

Definition response_503 : Response :=
  mkResponse 503
    (ErrorBody false "Database connection error"
       (Some "Unable to connect to database. Please try again later.") None).

Definition response_500 : Response :=
  mkResponse 500
    (ErrorBody false "Internal server error"
       (Some "An unexpected error occurred while processing sensor data") None).

Section Sensor.

(** [Date.parse]: the time value of a date string, [None] for NaN.  Which
    strings beyond the ISO format it accepts is up to the JavaScript
    engine, so it is left open here. *)
Variable Date_parse : string -> JsDate.

(** The property schemas of [createSensorDataSchema], each applied to its
    property of the input object. *)
Definition parse_device_id (fields : list (string * JsValue)) :=
  z_string (string_min 1 "device_id is required")
           (get_field "device_id" fields) ["device_id"].

Definition parse_timestamp (fields : list (string * JsValue)) :=
  z_string (refine (fun val => match Date_parse val with Some _ => true | None => false end)
                   "timestamp must be a valid ISO8601 format")
           (get_field "timestamp" fields) ["timestamp"].

Definition parse_temperature (fields : list (string * JsValue)) :=
  z_number no_checks (get_field "temperature" fields) ["temperature"].

Definition parse_humidity (fields : list (string * JsValue)) :=
  z_number (number_min 0 "humidity must be a positive number")
           (get_field "humidity" fields) ["humidity"].

(** [z.number().optional()]: an absent property is accepted as it is. *)
Definition parse_battery (fields : list (string * JsValue))
  : option (option float) * list ZodIssue :=
  match get_field "battery" fields with
  | None => (Some None, [])
  | Some v =>
      let '(b, i) := z_number no_checks (Some v) ["battery"] in
      (option_map Some b, i)
  end.

(** [createSensorDataSchema.parse]: every property is parsed and the
    issues of all are thrown together. *)
Definition createSensorDataSchema (input : JsValue) : ParseOutcome SensorData :=
  match input with
  | JObj fields =>
      let '(dev, i1) := parse_device_id fields in
      let '(ts, i2) := parse_timestamp fields in
      let '(temp, i3) := parse_temperature fields in
      let '(hum, i4) := parse_humidity fields in
      let '(bat, i5) := parse_battery fields in
      match dev, ts, temp, hum, bat, (i1 ++ i2 ++ i3 ++ i4 ++ i5)%list with
      | Some d, Some t, Some te, Some h, Some b, [] => Parsed (mkSensorData d t te h b)
      | _, _, _, _, _, issues => ThrewZodError issues
      end
  | _ => ThrewZodError [invalid_type "object" (Some input) []]
  end.

(** Lines 48-64 of [createSensorReading]: create and save a new reading. *)
Definition insertNewReading (data : SensorData) (timestampDate : JsDate)
  : Prog SensorResult :=
  (savedReading <- perform (SensorSave
      (mkSensorReadingDraft (device_id data) timestampDate (temperature data)
                            (humidity data) (battery data))) ;;
   Ret (mkSensorResult true (sr_id savedReading) savedReading))%prog.

(** [SensorService.createSensorReading]. *)
Definition createSensorReading (data : SensorData) : Prog SensorResult :=
  let timestampDate := Date_parse (timestamp data) in
  (existingReading <- perform (SensorFindOne (device_id data) timestampDate) ;;
   match existingReading with
   | Some r => Ret (mkSensorResult false (sr_id r) r)
   | None => insertNewReading data timestampDate
   end)%prog.

(** [SensorController.createSensorData]. *)
Definition createSensorData (req_body : SensorData) : Prog Response :=
  try_catch
    (result <- createSensorReading req_body ;;
     if isNew result
     then Ret (mkResponse 201
                 (SensorBody true "New record created" (result_id result)
                             (result_data result)))
     else Ret (mkResponse 200
                 (SensorBody true "Record already exists" (result_id result)
                             (result_data result))))%prog
    (fun error =>
       if instanceof_Error error
          && (includes "connect" (error_message error)
              || includes "Connection" (error_message error))
       then Ret response_503
       else Ret response_500).

(** The route POST /sensor-data: middleware, then controller. *)
Definition post_sensor_data (req_body : JsValue) : Prog Response :=
  validate createSensorDataSchema req_body createSensorData.

(** *** The preconditions of a submission, in the specification's words *)

(** A property that is a number. *)
Definition numeric (v : option JsValue) : bool :=
  match v with
  | Some (JNum x) => negb (PrimFloat.is_nan x)
  | _ => false
  end.

(** [deviceId] is non-empty text. *)
Definition device_id_ok (fields : list (string * JsValue)) : bool :=
  match get_field "device_id" fields with
  | Some (JStr s) => negb (Nat.eqb (String.length s) 0)
  | _ => false
  end.

(** [timestamp] parses as a valid date-time. *)
Definition timestamp_ok (fields : list (string * JsValue)) : bool :=
  match get_field "timestamp" fields with
  | Some (JStr s) => match Date_parse s with Some _ => true | None => false end
  | _ => false
  end.

(** [humidity] is numeric and not below 0. *)
Definition humidity_ok (fields : list (string * JsValue)) : bool :=
  match get_field "humidity" fields with
  | Some (JNum h) => negb (PrimFloat.is_nan h) && negb (PrimFloat.ltb h 0)
  | _ => false
  end.

(** [battery], if present, is numeric. *)
Definition battery_ok (fields : list (string * JsValue)) : bool :=
  match get_field "battery" fields with
  | None => true
  | Some v => numeric (Some v)
  end.

Definition preconditions (input : JsValue) : bool :=
  match input with
  | JObj fields =>
      device_id_ok fields && timestamp_ok fields
      && numeric (get_field "temperature" fields)
      && humidity_ok fields && battery_ok fields
  | _ => false
  end.

(** *** What an insert leaves behind *)

(** A new reading saved into [w], the clock having been read for its
    creation instant. *)
Definition new_reading (d : SensorData) (t : TimeValue) (w : World) : SensorReading :=
  mkSensorReading (next_uuid w) (device_id d) t (temperature d) (humidity d)
                  (battery d) None (fst (tick w)).

Definition after_insert (r : SensorReading) (w : World) : World :=
  set_sensor_readings ((sensor_readings w ++ [r])%list) (N.succ (next_uuid w)) (snd (tick w)).

End Sensor.

(** ** Device commands *)

(** The validated body of POST /device-control. *)
Record DeviceControlData : Type := mkDeviceControlData {
  dcd_device_id : string;
  dcd_command : CommandType
}.

Record MqttPayload : Type := mkMqttPayload {
  payload_command : string;
  payload_timestamp : string
}.

(** [JSON.stringify(mqttPayload)]: the properties in insertion order. *)
Definition JSON_stringify (p : MqttPayload) : string :=
  "{" ++ JSON_quote "command" ++ ":" ++ JSON_quote (payload_command p)
  ++ "," ++ JSON_quote "timestamp" ++ ":" ++ JSON_quote (payload_timestamp p) ++ "}".

(** [MQTTService.publish]. *)
Definition MQTTService_publish (topic message : string) : Prog unit :=
  (client <- perform ReadClient ;;
   match client with
   | None => Throw (ErrorObj "MQTT client not connected")
   | Some _ => perform (ClientPublish topic message)
   end)%prog.

Definition with_status (s : CommandStatus) (c : DeviceCommandObj) : DeviceCommandObj :=
  mkDeviceCommandObj (co_id c) (co_deviceId c) (co_command c) s
                     (co_errorMessage c) (co_createdAt c).

Definition with_errorMessage (m : string) (c : DeviceCommandObj) : DeviceCommandObj :=
  mkDeviceCommandObj (co_id c) (co_deviceId c) (co_command c) (co_status c)
                     (Some m) (co_createdAt c).

Definition control_topic (deviceId : string) : string :=
  "greenhouse/control/" ++ deviceId.

(** [DeviceService.sendControlCommand].  The [catch] block assigns
    [status] afresh, the one field the [try] block had changed on the
    shared object when its [save] throws. *)
Definition sendControlCommand (data : DeviceControlData) : Prog DeviceCommandObj :=
  let commandRecord :=
    mkDeviceCommandObj None (dcd_device_id data) (dcd_command data) QUEUED None None in
  (savedCommand <- perform (CommandSave commandRecord) ;;
   now <- perform DateNow ;;
   let mqttPayload :=
     mkMqttPayload (CommandType_value (dcd_command data)) (toISOString now) in
   let topic := control_topic (dcd_device_id data) in
   try_catch
     (MQTTService_publish topic (JSON_stringify mqttPayload) ;;;
      let savedCommand := with_status PUBLISHED savedCommand in
      perform (CommandSave savedCommand) ;;;
      Ret savedCommand)
     (fun error =>
        let savedCommand :=
          with_errorMessage
            (if instanceof_Error error then error_message error
             else "Unknown MQTT error")
            (with_status ERROR savedCommand) in
        perform (CommandSave savedCommand) ;;;
        Throw error))%prog.

(** [DeviceController.sendControlCommand]. *)
Definition DeviceController_sendControlCommand (req_body : DeviceControlData)
  : Prog Response :=
  try_catch
    (commandRecord <- sendControlCommand req_body ;;
     Ret (mkResponse 201
            (CommandBody true "Command sent successfully" (co_status commandRecord)
               (mkCommandView (co_id commandRecord) (co_deviceId commandRecord)
                              (co_command commandRecord) (co_status commandRecord)
                              (co_createdAt commandRecord)))))%prog
    (fun error =>
       if instanceof_Error error
       then Ret (mkResponse 500
                   (ErrorBody false "MQTT publish failed" (Some (error_message error))
                              (Some "error")))
       else Ret (mkResponse 500
                   (ErrorBody false "Internal server error"
                              (Some "Failed to process device control command") None))).

(** ** Health check *)

Record HealthStatus : Type := mkHealthStatus {
  isHealthy : bool;
  service : ServiceStatus;
  db : DbHealth;
  mqtt : MqttHealth
}.

Definition thrown_message (fallback : string) (error : JsThrown) : string :=
  if instanceof_Error error then error_message error else fallback.

(** [HealthService.checkDatabase]. *)
Definition checkDatabase : Prog DbHealth :=
  try_catch
    (startTime <- perform DateNow ;;
     perform (DataSourceQuery "SELECT 1") ;;;
     endTime <- perform DateNow ;;
     Ret (mkDbHealth Connected (endTime - startTime) None))%prog
    (fun error =>
       Ret (mkDbHealth Disconnected 0 (Some (thrown_message "Unknown database error" error)))).

(** [HealthService.checkMQTT]. *)
Definition checkMQTT : Prog MqttHealth :=
  try_catch
    (client <- perform ReadClient ;;
     match client with
     | None => Ret (mkMqttHealth Disconnected (Some "MQTT client not initialized"))
     | Some c =>
         let isConnected := connected c in
         Ret (mkMqttHealth (if isConnected then Connected else Disconnected)
                           (if isConnected then None else Some "MQTT client disconnected"))
     end)%prog
    (fun error =>
       Ret (mkMqttHealth Disconnected (Some (thrown_message "Unknown MQTT error" error)))).

(** A settled promise, as [Promise.allSettled] reports it. *)
Inductive Settled (A : Type) : Type :=
| Fulfilled (value : A)
| Rejected (reason : JsThrown).
Arguments Fulfilled {A} value.
Arguments Rejected {A} reason.

(** Calls that are awaited; the others answer at once. *)
Definition is_async {X : Type} (ev : Event X) : bool :=
  match ev with
  | SensorFindOne _ _ | SensorSave _ | CommandSave _ | DataSourceQuery _ => true
  | ReadClient | ClientPublish _ _ | DateNow => false
  end.

(** Calling an async function: its body runs up to its first awaited call
    and the rest is the pending promise. *)
Fixpoint start {A : Type} (p : Prog A) : Prog (Prog A) :=
  match p with
  | Vis ev k => if is_async ev then Ret p else Vis ev (fun r => start (k r))
  | _ => Ret p
  end.

(** Awaiting a promise inside [Promise.allSettled]. *)
Fixpoint settle {A : Type} (p : Prog A) : Prog (Settled A) :=
  match p with
  | Ret a => Ret (Fulfilled a)
  | Throw e => Ret (Rejected e)
  | Vis ev k => Vis ev (fun r => settle (k r))
  end.

(** Lines 168-192 of [performHealthCheck]: from the settled results to the
    health status. *)
Definition healthOf (dbResult : Settled DbHealth) (mqttResult : Settled MqttHealth)
  : HealthStatus :=
  let dbHealth :=
    match dbResult with
    | Fulfilled value => value
    | Rejected _ => mkDbHealth Disconnected 0 (Some "Health check failed")
    end in
  let mqttHealth :=
    match mqttResult with
    | Fulfilled value => value
    | Rejected _ => mkMqttHealth Disconnected (Some "Health check failed")
    end in
  let isHealthy :=
    match db_status dbHealth, mqtt_status mqttHealth with
    | Connected, Connected => true
    | _, _ => false
    end in
  mkHealthStatus isHealthy (if isHealthy then ServiceOk else ServiceDegraded)
                 dbHealth mqttHealth.

(** [HealthService.performHealthCheck]: the database probe is started, the
    broker probe runs while its query is in flight, and both are joined. *)
Definition performHealthCheck : Prog HealthStatus :=
  (dbPromise <- start checkDatabase ;;
   mqttValue <- checkMQTT ;;
   dbResult <- settle dbPromise ;;
   mqttResult <- settle (Ret mqttValue) ;;
   Ret (healthOf dbResult mqttResult))%prog.

(** [...(error && { error })]: the property is there for a non-empty string. *)
Definition truthy (error : option string) : option string :=
  match error with
  | Some EmptyString => None
  | other => other
  end.

(** [HealthController.getStatus]. *)
Definition getStatus : Prog Response :=
  try_catch
    (healthStatus <- performHealthCheck ;;
     let httpStatus := if isHealthy healthStatus then 200 else 503 in
     Ret (mkResponse httpStatus
            (HealthBody (service healthStatus)
               (mkDbHealth (db_status (db healthStatus)) (latency_ms (db healthStatus))
                           (truthy (db_error (db healthStatus))))
               (mkMqttHealth (mqtt_status (mqtt healthStatus))
                             (truthy (mqtt_error (mqtt healthStatus)))))))%prog
    (fun error =>
       Ret (mkResponse 503
              (HealthFailBody ServiceDegraded "Health check failed"
                 (thrown_message "Unknown error" error)))).

(** ** Observations on a run *)

(** What each probe has to find in a world: the database answers the
    probe's query unless a fault is scheduled for it; the broker client
    exists and has its [connected] flag set. *)
Definition database_reachable (w : World) : bool :=
  match hd None (db_faults w) with None => true | Some _ => false end.

Definition broker_connected (w : World) : bool :=
  match mqtt_client w with Some c => connected c | None => false end.

Definition status_of_flag (b : bool) : ConnStatus :=
  if b then Connected else Disconnected.

(** The worlds a program passes through, one per event. *)
Fixpoint trace {A : Type} (p : Prog A) (w : World) : list World :=
  match p with
  | Vis ev k => let (r, w1) := handle ev w in w1 :: trace (k r) w1
  | _ => []
  end.

(** The persisted status of the command with a given id. *)
Definition status_of (id : Uuid) (w : World) : option CommandStatus :=
  option_map dc_status (find (has_id id) (device_commands w)).

Definition errorMessage_of (id : Uuid) (w : World) : option string :=
  match find (has_id id) (device_commands w) with
  | Some d => dc_errorMessage d
  | None => None
  end.

(** One step of a command's life: nothing changes, the row appears as
    queued, or a queued row becomes published or error. *)
Definition forward (a b : option CommandStatus) : bool :=
  match a, b with
  | None, None => true
  | None, Some QUEUED => true
  | Some QUEUED, Some _ => true
  | Some PUBLISHED, Some PUBLISHED => true
  | Some ERROR, Some ERROR => true
  | _, _ => false
  end.

Fixpoint chain {A : Type} (step_ok : A -> A -> bool) (x : A) (l : list A) : bool :=
  match l with
  | [] => true
  | y :: rest => step_ok x y && chain step_ok y rest
  end.

(** What [mqttService.publish] will do in a world: [None] when the
    message is handed to the client, otherwise what it throws. *)
Definition publish_raises (w : World) : option JsThrown :=
  match mqtt_client w with
  | None => Some (ErrorObj "MQTT client not connected")
  | Some c => publish_throws c
  end.

(** YYYY-MM-DDTHH:mm:ss.sssZ with decimal digits in the digit places. *)
Definition is_digit (c : ascii) : bool :=
  match digit_of c with Some _ => true | None => false end.

Fixpoint all_digits (n : nat) (s : string) : option string :=
  match n with
  | O => Some s
  | S n' =>
      match s with
      | String c rest => if is_digit c then all_digits n' rest else None
      | EmptyString => None
      end
  end.

(** The year: four digits, or a sign and six. *)
Definition year_digits (s : string) : option string :=
  match s with
  | String "+" rest | String "-" rest => all_digits 6 rest
  | _ => all_digits 4 s
  end.

Definition iso8601_utc_shape (s : string) : bool :=
  match obind (year_digits s) (fun s1 =>
        obind (expect "-" s1) (fun s2 =>
        obind (all_digits 2 s2) (fun s3 =>
        obind (expect "-" s3) (fun s4 =>
        obind (all_digits 2 s4) (fun s5 =>
        obind (expect "T" s5) (fun s6 =>
        obind (all_digits 2 s6) (fun s7 =>
        obind (expect ":" s7) (fun s8 =>
        obind (all_digits 2 s8) (fun s9 =>
        obind (expect ":" s9) (fun s10 =>
        obind (all_digits 2 s10) (fun s11 =>
        obind (expect "." s11) (fun s12 =>
        obind (all_digits 3 s12) (fun s13 =>
        expect "Z" s13))))))))))))) with
  | Some EmptyString => true
  | _ => false
  end.

(** ** Sample requests and worlds *)

(** The submission of the specification's scenario. *)
Definition sample_body : JsValue :=
  JObj [("device_id", JStr "sensor-001");
        ("timestamp", JStr "2025-12-26T20:00:00Z");
        ("temperature", JNum 25.5%float);
        ("humidity", JNum 60%float);
        ("battery", JNum 85%float)].

Definition sample_data : SensorData :=
  mkSensorData "sensor-001" "2025-12-26T20:00:00Z" 25.5%float 60%float (Some 85%float).





(** Empty tables behind a reachable database; the clock still to be read. *)
Definition fresh_world : World :=
  mkWorld [] [] 1%N [] [1766779201234; 1766779201240; 1766779201250]
          (Some (mkMqttClient true None)) [].

Definition bad_timestamp_fields : list (string * JsValue) :=
  [("device_id", JStr "sensor-001");
   ("timestamp", JStr "not-a-date");
   ("temperature", JNum 25.5%float);
   ("humidity", JNum 60%float)].

Definition negative_humidity_fields : list (string * JsValue) :=
  [("device_id", JStr "sensor-001");
   ("timestamp", JStr "2025-12-26T20:00:00Z");
   ("temperature", JNum 25.5%float);
   ("humidity", JNum (-1)%float)].






(** The world in which another request has saved [sample_data] first. *)
Definition raced_world : World :=
  after_insert (new_reading sample_data 1766779200000 fresh_world) fresh_world.

(** The broker client was never created. *)
Definition no_client_world : World :=
  mkWorld [] [] 1%N [] [1766779201234; 1766779201240] None [].

(** The database host does not resolve when the first call is made. *)
Definition unresolved_host_world : World :=
  mkWorld [] [] 1%N [Some "getaddrinfo ENOTFOUND postgres"] []
          (Some (mkMqttClient true None)) [].

(** The connection is refused when the first call is made. *)
Definition refused_world : World :=
  mkWorld [] [] 1%N [Some "connect ECONNREFUSED 127.0.0.1:5432"] []
          (Some (mkMqttClient true None)) [].

(** The insert of a command goes through, the connection is lost before
    the status is written, and the broker client was never created. *)
Definition lost_connection_world : World :=
  mkWorld [] [] 1%N [None; Some "Connection terminated unexpectedly"]
          [1766779201234; 1766779201240] None [].

(** The insert of a command goes through and the message is handed to
    the broker client, but the connection is lost before the status is
    written; it is back for the next call. *)
Definition lost_write_world : World :=
  mkWorld [] [] 1%N [None; Some "Connection terminated unexpectedly"]
          [1766779201234; 1766779201240] (Some (mkMqttClient true None)) [].

Definition sample_command : DeviceControlData := mkDeviceControlData "greenhouse-01" ON.

(** ** The rest of the routes *)

(** *** POST /device-control *)

(** [z.enum(['ON', 'OFF'], { message })] on the property [command]: the
    message given replaces the one of every issue of this schema. *)
Definition parse_command (fields : list (string * JsValue))
  : option CommandType * list ZodIssue :=
  match get_field "command" fields with
  | Some (JStr s) =>
      if String.eqb s "ON" then (Some ON, [])
      else if String.eqb s "OFF" then (Some OFF, [])
      else (None, [mkZodIssue "invalid_enum_value" ["command"]
                              "command must be either 'ON' or 'OFF'"])
  | _ => (None, [mkZodIssue "invalid_type" ["command"]
                            "command must be either 'ON' or 'OFF'"])
  end.

(** [deviceControlSchema.parse]. *)
Definition deviceControlSchema (input : JsValue) : ParseOutcome DeviceControlData :=
  match input with
  | JObj fields =>
      let '(dev, i1) := parse_device_id fields in
      let '(cmd, i2) := parse_command fields in
      match dev, cmd, (i1 ++ i2)%list with
      | Some d, Some c, [] => Parsed (mkDeviceControlData d c)
      | _, _, issues => ThrewZodError issues
      end
  | _ => ThrewZodError [invalid_type "object" (Some input) []]
  end.

(** The route POST /device-control: middleware, then controller. *)
Definition post_device_control (req_body : JsValue) : Prog Response :=
  validate deviceControlSchema req_body DeviceController_sendControlCommand.


(** *** POST /sensor-data, the route with its own schema and handler *)

(** The answer of a [catch] block of the sensor routes to what the
    database calls threw. *)
Definition sensor_error_response (error : JsThrown) : Response :=
  if instanceof_Error error
     && (includes "connect" (error_message error)
         || includes "Connection" (error_message error))
  then response_503
  else response_500.

Section SensorInline.

Variable Date_parse : string -> JsDate.

(** [humidity: z.number()]. *)
Definition parse_humidity_inline (fields : list (string * JsValue)) :=
  z_number no_checks (get_field "humidity" fields) ["humidity"].

(** [sensorDataSchema.parse] of routes/sensor.routes.ts. *)
Definition sensorDataSchema (input : JsValue) : ParseOutcome SensorData :=
  match input with
  | JObj fields =>
      let '(dev, i1) := parse_device_id fields in
      let '(ts, i2) := parse_timestamp Date_parse fields in
      let '(temp, i3) := parse_temperature fields in
      let '(hum, i4) := parse_humidity_inline fields in
      let '(bat, i5) := parse_battery fields in
      match dev, ts, temp, hum, bat, (i1 ++ i2 ++ i3 ++ i4 ++ i5)%list with
      | Some d, Some t, Some te, Some h, Some b, [] => Parsed (mkSensorData d t te h b)
      | _, _, _, _, _, issues => ThrewZodError issues
      end
  | _ => ThrewZodError [invalid_type "object" (Some input) []]
  end.

(** The handler of [router.post('/sensor-data', ...)] that validates,
    looks up and saves in one [try] block; its [catch] tells a ZodError
    from the rest. *)
Definition sensor_data_inline (req_body : JsValue) : Prog Response :=
  match sensorDataSchema req_body with
  | ThrewZodError issues =>
      Ret (mkResponse 400
             (ValidationBody false "Validation failed" (map detail_of_issue issues)))
  | ThrewOther error => Ret (sensor_error_response error)
  | Parsed validatedData =>
      try_catch
        (existingReading <-
           perform (SensorFindOne (device_id validatedData)
                                  (Date_parse (timestamp validatedData))) ;;
         match existingReading with
         | Some r =>
             Ret (mkResponse 200 (SensorBody true "Record already exists" (sr_id r) r))
         | None =>
             savedReading <-
               perform (SensorSave
                          (mkSensorReadingDraft (device_id validatedData)
                             (Date_parse (timestamp validatedData))
                             (temperature validatedData) (humidity validatedData)
                             (battery validatedData))) ;;
             Ret (mkResponse 201
                    (SensorBody true "New record created" (sr_id savedReading)
                                savedReading))
         end)%prog
        (fun error => Ret (sensor_error_response error))
  end.

End SensorInline.

(** *** GET /sensor-data *)

Record SensorFilters : Type := mkSensorFilters {
  filter_deviceId : option string;
  filter_startDate : option string;
  filter_endDate : option string;
  (* [None]: undefined or NaN *)
  filter_limit : option Z
}.

(** The query string, each parameter given once or not at all. *)
Record SensorQuery : Type := mkSensorQuery {
  query_deviceId : option string;
  query_startDate : option string;
  query_endDate : option string;
  query_limit : option string
}.

Inductive ListBody : Type :=
| ListOk (success : bool) (count : nat) (data : list SensorReading)
| ListFailed (success : bool) (error : string).

Record ListResponse : Type := mkListResponse {
  list_status : Z;
  list_body : ListBody
}.

(** The date condition the query builder adds. *)
Inductive DateWhere : Type :=
| NoDateWhere
| Between (startDate endDate : string)
| AtLeast (startDate : string).

Definition date_where (filters : SensorFilters) : DateWhere :=
  match truthy (filter_startDate filters), truthy (filter_endDate filters) with
  | Some a, Some b => Between a b
  | Some a, None => AtLeast a
  | None, _ => NoDateWhere
  end.

Definition where_deviceId (filters : SensorFilters) (r : SensorReading) : bool :=
  match truthy (filter_deviceId filters) with
  | Some deviceId => String.eqb (sr_deviceId r) deviceId
  | None => true
  end.

Definition negative_limit_message : string := "LIMIT must not be negative".

(** LIMIT takes a bigint. *)
Definition bigint_max : Z := 9223372036854775807.

Definition limit_out_of_range_message : string := "bigint out of range".

Section SensorListing.

(** PostgreSQL's reading of a timestamptz parameter; [None] when it
    refuses the text. *)
Variable pg_timestamptz : string -> option TimeValue.

(** ORDER BY reading.timestamp DESC: the order among readings of one
    instant is the database's. *)
Variable order_by_timestamp_desc : list SensorReading -> list SensorReading.

(** [parseInt] of a string; [None] is NaN. *)
Variable parseInt : string -> option Z.

(** The rows the date condition keeps, unless a bound is refused. *)
Definition where_date (c : DateWhere) : option (SensorReading -> bool) :=
  match c with
  | NoDateWhere => Some (fun _ => true)
  | Between a b =>
      match pg_timestamptz a, pg_timestamptz b with
      | Some ta, Some tb =>
          Some (fun r => (ta <=? sr_timestamp r) && (sr_timestamp r <=? tb))
      | _, _ => None
      end
  | AtLeast a =>
      match pg_timestamptz a with
      | Some ta => Some (fun r => ta <=? sr_timestamp r)
      | None => None
      end
  end.

(** [queryBuilder.getMany()] of the query [getAllSensorReadings] builds. *)
Definition db_getMany (filters : SensorFilters) (w : World)
  : Result (list SensorReading) * World :=
  match where_date (date_where filters) with
  | None => (Err (ErrorObj invalid_date_message), w)
  | Some in_range =>
      let ordered :=
        order_by_timestamp_desc
          (filter in_range (filter (where_deviceId filters) (sensor_readings w))) in
      match filter_limit filters with
      | None => (Ok ordered, w)
      | Some n =>
          if n =? 0 then (Ok ordered, w)
          else if n <? 0 then (Err (ErrorObj negative_limit_message), w)
          else if bigint_max <? n then (Err (ErrorObj limit_out_of_range_message), w)
          else (Ok (firstn (Z.to_nat n) ordered), w)
      end
  end.

(** [SensorService.getAllSensorReadings]. *)
Definition getAllSensorReadings (filters : SensorFilters) (w : World)
  : Outcome (list SensorReading) * World :=
  match db_call (db_getMany filters) w with
  | (Ok readings, w1) => (Returned readings, w1)
  | (Err e, w1) => (Threw e, w1)
  end.

(** [SensorController.getAllSensorReadings]. *)
Definition SensorController_getAllSensorReadings (query : SensorQuery) (w : World)
  : ListResponse * World :=
  let filters :=
    mkSensorFilters (query_deviceId query) (query_startDate query) (query_endDate query)
      (match truthy (query_limit query) with
       | Some limit => parseInt limit
       | None => Some 100
       end) in
  match getAllSensorReadings filters w with
  | (Returned readings, w1) =>
      (mkListResponse 200 (ListOk true (List.length readings) readings), w1)
  | (Threw _, w1) =>
      (mkListResponse 500 (ListFailed false "Failed to fetch sensor readings"), w1)
  end.

End SensorListing.

(** Most recent first. *)
Definition newer_first (a b : SensorReading) : Prop := sr_timestamp b <= sr_timestamp a.

(** An ordering the database may use: insertion by timestamp. *)
Fixpoint insert_desc (r : SensorReading) (l : list SensorReading) : list SensorReading :=
  match l with
  | [] => [r]
  | x :: rest =>
      if sr_timestamp x <=? sr_timestamp r then r :: l else x :: insert_desc r rest
  end.

Fixpoint sort_desc (l : list SensorReading) : list SensorReading :=
  match l with
  | [] => []
  | r :: rest => insert_desc r (sort_desc rest)
  end.

(** [parseInt] of a string of ASCII characters, no radix given: leading
    white space, a sign, a 0x or 0X prefix, then the digits of the radix
    as far as they go; NaN when there is none.  The result is a Number:
    the integer read is rounded to 53 significant bits, ties to even (an
    integer beyond the largest Number, which [parseInt] gives as Infinity,
    is left as the large integer it rounds to). *)
Definition round_to_double (n : Z) : Z :=
  let e := Z.log2 n - 52 in
  if e <=? 0 then n
  else
    let q := Z.shiftr n e in
    let r := n - Z.shiftl q e in
    let half := Z.shiftl 1 (e - 1) in
    Z.shiftl (if (half <? r) || ((r =? half) && Z.odd q) then q + 1 else q) e.

Definition is_space (c : ascii) : bool :=
  let n := nat_of_ascii c in
  ((9 <=? n) && (n <=? 13))%nat || (n =? 32)%nat.

Fixpoint skip_spaces (s : string) : string :=
  match s with
  | String c rest => if is_space c then skip_spaces rest else s
  | EmptyString => s
  end.

Definition digit_in_radix (radix : Z) (c : ascii) : option Z :=
  let n := Z.of_nat (nat_of_ascii c) in
  let v := if (48 <=? n) && (n <=? 57) then n - 48
           else if (97 <=? n) && (n <=? 122) then n - 87
           else if (65 <=? n) && (n <=? 90) then n - 55
           else radix in
  if v <? radix then Some v else None.

Fixpoint leading_digits (radix : Z) (s : string) (acc : option Z) : option Z :=
  match s with
  | EmptyString => acc
  | String c rest =>
      match digit_in_radix radix c with
      | Some d =>
          leading_digits radix rest
            (Some (radix * match acc with Some a => a | None => 0 end + d))
      | None => acc
      end
  end.

Definition parseInt_ascii (input : string) : option Z :=
  let s := skip_spaces input in
  let '(sign, s1) :=
    match s with
    | String "-" rest => (-1, rest)
    | String "+" rest => (1, rest)
    | _ => (1, s)
    end in
  let '(radix, s2) :=
    match s1 with
    | String "0" (String "x" rest) | String "0" (String "X" rest) => (16, rest)
    | _ => (10, s1)
    end in
  option_map (fun n => sign * round_to_double n) (leading_digits radix s2 None).

(** *** POST /mqtt/publish *)

Inductive MqttRouteBody : Type :=
| MqttDone (success : bool) (message : string)
| MqttFailed (success : bool) (error : string).

Record MqttRouteResponse : Type := mkMqttRouteResponse {
  mqtt_http_status : Z;
  mqtt_route_body : MqttRouteBody
}.

(** The handler of [router.post('/publish', ...)] on a body whose [topic]
    and [message] are strings or absent. *)
Definition mqtt_publish_route (topic message : option string) : Prog MqttRouteResponse :=
  try_catch
    (match truthy topic, truthy message with
     | Some t, Some m =>
         (MQTTService_publish t m ;;;
          Ret (mkMqttRouteResponse 200
                 (MqttDone true ("Message published to topic: " ++ t))))%prog
     | _, _ =>
         Ret (mkMqttRouteResponse 400
                (MqttFailed false "Topic and message are required"))
     end)
    (fun error =>
       Ret (mkMqttRouteResponse 500
              (MqttFailed false (thrown_message "Failed to publish message" error)))).

(** ** Answers and outcomes of the sensor route *)




(** ** Observations on the listing and the health report *)

(** What the controller hands to the service, the limit left out. *)
Definition filters_of (query : SensorQuery) : SensorFilters :=
  mkSensorFilters (query_deviceId query) (query_startDate query) (query_endDate query)
                  None.

(** A query with its empty parameters dropped, and its [endDate] too when
    there is no [startDate]. *)
Definition effective_query (query : SensorQuery) : SensorQuery :=
  mkSensorQuery (truthy (query_deviceId query)) (truthy (query_startDate query))
    (match truthy (query_startDate query) with
     | Some _ => truthy (query_endDate query)
     | None => None
     end)
    (truthy (query_limit query)).

Definition response_list (data : list SensorReading) : ListResponse :=
  mkListResponse 200 (ListOk true (List.length data) data).

Definition response_list_failed : ListResponse :=
  mkListResponse 500 (ListFailed false "Failed to fetch sensor readings").

(** Three readings of two devices, stored oldest first. *)
Definition listing_world : World :=
  mkWorld
    [ mkSensorReading 1%N "sensor-001" 1766779200000 25.5%float 60%float None None
                      1766779201234;
      mkSensorReading 2%N "sensor-002" 1766779260000 24%float 58%float None None
                      1766779261234;
      mkSensorReading 3%N "sensor-001" 1766779500000 26%float 61%float None None
                      1766779501234 ]
    [] 4%N [] [] (Some (mkMqttClient true None)) [].

(** What the broker probe reports for a client. *)
Definition broker_report (client : option MqttClient) : MqttHealth :=
  match client with
  | None => mkMqttHealth Disconnected (Some "MQTT client not initialized")
  | Some c =>
      if connected c then mkMqttHealth Connected None
      else mkMqttHealth Disconnected (Some "MQTT client disconnected")
  end.

Arguments toISOString : simpl never.
Arguments JSON_stringify : simpl never.
Arguments control_topic : simpl never.
Arguments digit_char : simpl never.
Arguments pad : simpl never.

(** * Properties *)

Open Scope list_scope.

(** ** Running programs *)

Lemma run_bind {A B : Type} (p : Prog A) (f : A -> Prog B) (w : World) :
  run (bind p f) w =
  match run p w with
  | (Returned a, w1) => run (f a) w1
  | (Threw e, w1) => (Threw e, w1)
  end.
Proof.
  revert w; induction p as [a | e | X ev k IH]; intro w; simpl; try reflexivity.
  destruct (handle ev w) as [r w1]. apply IH.
Qed.

Lemma run_try_catch {A : Type} (p : Prog A) (h : JsThrown -> Prog A) (w : World) :
  run (try_catch p h) w =
  match run p w with
  | (Returned a, w1) => (Returned a, w1)
  | (Threw e, w1) => run (h e) w1
  end.
Proof.
  revert w; induction p as [a | e | X ev k IH]; intro w; simpl; try reflexivity.
  destruct (handle ev w) as [r w1]. apply IH.
Qed.

Lemma run_perform {X : Type} (ev : Event X) (w : World) :
  run (perform ev) w =
  match handle ev w with
  | (Ok x, w1) => (Returned x, w1)
  | (Err e, w1) => (Threw e, w1)
  end.
Proof.
  unfold perform; simpl. destruct (handle ev w) as [[x | e] w1]; reflexivity.
Qed.

Lemma next_fault_nil (w : World) : db_faults w = [] -> next_fault w = (None, w).
Proof. destruct w; simpl; intros ->; reflexivity. Qed.

Lemma db_call_nil {X : Type} (op : World -> Result X * World) (w : World) :
  db_faults w = [] -> db_call op w = op w.
Proof. intro H; unfold db_call; rewrite (next_fault_nil w H); reflexivity. Qed.

Lemma db_call_fault {X : Type} (op : World -> Result X * World) (w : World) m rest :
  db_faults w = Some m :: rest ->
  exists w1, db_call op w = (Err (ErrorObj m), w1)
             /\ sensor_readings w1 = sensor_readings w
             /\ device_commands w1 = device_commands w.
Proof.
  intro H; unfold db_call, next_fault; rewrite H; simpl.
  eexists; split; [reflexivity | split; reflexivity].
Qed.

Lemma find_none_existsb {A : Type} (f : A -> bool) (l : list A) :
  find f l = None -> existsb f l = false.
Proof.
  induction l as [| a l IH]; simpl; [reflexivity |].
  destruct (f a); [discriminate | exact IH].
Qed.

Lemma find_app_new {A : Type} (f : A -> bool) (l : list A) (a : A) :
  find f l = None -> f a = true -> find f (l ++ [a]) = Some a.
Proof.
  induction l as [| b l IH]; simpl; intros Hn Ha.
  - rewrite Ha; reflexivity.
  - destruct (f b); [discriminate | apply IH; assumption].
Qed.

(** ** Sensor ingestion *)

Section SensorProperties.

Variable Date_parse : string -> JsDate.












(** The controller on a service result. *)
Lemma controller_returned (d : SensorData) (w w1 : World) (res : SensorResult) :
  run (createSensorReading Date_parse d) w = (Returned res, w1) ->
  run (createSensorData Date_parse d) w =
  (Returned (mkResponse (if isNew res then 201 else 200)
               (SensorBody true
                  (if isNew res then "New record created" else "Record already exists")
                  (result_id res) (result_data res))), w1).
Proof.
  intro H. unfold createSensorData. rewrite run_try_catch, run_bind, H.
  destruct (isNew res); reflexivity.
Qed.

Lemma controller_threw (d : SensorData) (w w1 : World) (e : JsThrown) :
  run (createSensorReading Date_parse d) w = (Threw e, w1) ->
  run (createSensorData Date_parse d) w =
  (Returned (if instanceof_Error e
                && (includes "connect" (error_message e)
                    || includes "Connection" (error_message e))
             then response_503 else response_500), w1).
Proof.
  intro H. unfold createSensorData. rewrite run_try_catch, run_bind, H.
  destruct (instanceof_Error e && _); reflexivity.
Qed.

Lemma route_parsed (b : JsValue) (d : SensorData) :
  createSensorDataSchema Date_parse b = Parsed d ->
  post_sensor_data Date_parse b = createSensorData Date_parse d.
Proof. intro H. unfold post_sensor_data, validate. rewrite H. reflexivity. Qed.

(** *** The schema *)

Lemma z_string_cases (checks : string -> list string -> list ZodIssue) v p :
  (exists s, v = Some (JStr s) /\ z_string checks v p = (Some s, checks s p))
  \/ ((forall s, v <> Some (JStr s))
      /\ z_string checks v p = (None, [invalid_type "string" v p])).
Proof.
  destruct v as [[| b | x | s | l | f] |]; simpl;
    try (right; split; [intros s' H; discriminate | reflexivity]).
  left; exists s; split; reflexivity.
Qed.

Lemma z_number_cases (checks : float -> list string -> list ZodIssue) v p :
  (exists x, v = Some (JNum x) /\ PrimFloat.is_nan x = false
             /\ z_number checks v p = (Some x, checks x p))
  \/ (numeric v = false
      /\ z_number checks v p = (None, [invalid_type "number" v p])).
Proof.
  destruct v as [[| b | x | s | l | f] |]; simpl;
    try (right; split; reflexivity).
  destruct (PrimFloat.is_nan x) eqn:E.
  - right; split; reflexivity.
  - left; exists x; repeat split; auto.
Qed.

(** The object schema accepts exactly when each property parser gives a
    value and no issue. *)
Lemma schema_accepts fields d :
  createSensorDataSchema Date_parse (JObj fields) = Parsed d <->
  parse_device_id fields = (Some (device_id d), [])
  /\ parse_timestamp Date_parse fields = (Some (timestamp d), [])
  /\ parse_temperature fields = (Some (temperature d), [])
  /\ parse_humidity fields = (Some (humidity d), [])
  /\ parse_battery fields = (Some (battery d), []).
Proof.
  unfold createSensorDataSchema.
  destruct (parse_device_id fields) as [dev i1].
  destruct (parse_timestamp Date_parse fields) as [ts i2].
  destruct (parse_temperature fields) as [temp i3].
  destruct (parse_humidity fields) as [hum i4].
  destruct (parse_battery fields) as [bat i5].
  split.
  - intro H.
    destruct dev as [dev |]; [| discriminate H].
    destruct ts as [ts |]; [| discriminate H].
    destruct temp as [temp |]; [| discriminate H].
    destruct hum as [hum |]; [| discriminate H].
    destruct bat as [bat |]; [| discriminate H].
    destruct i1; [| discriminate H]. destruct i2; [| discriminate H].
    destruct i3; [| discriminate H]. destruct i4; [| discriminate H].
    destruct i5; [| discriminate H].
    simpl in H. injection H as <-. simpl. repeat split; reflexivity.
  - intros (H1 & H2 & H3 & H4 & H5).
    injection H1 as -> ->. injection H2 as -> ->. injection H3 as -> ->.
    injection H4 as -> ->. injection H5 as -> ->.
    destruct d; reflexivity.
Qed.

(** Otherwise it throws a ZodError with the issues of all five. *)
Lemma schema_rejects fields :
  (forall d, createSensorDataSchema Date_parse (JObj fields) <> Parsed d) ->
  createSensorDataSchema Date_parse (JObj fields) =
  ThrewZodError (snd (parse_device_id fields) ++ snd (parse_timestamp Date_parse fields)
                 ++ snd (parse_temperature fields) ++ snd (parse_humidity fields)
                 ++ snd (parse_battery fields)).
Proof.
  unfold createSensorDataSchema.
  destruct (parse_device_id fields) as [dev i1].
  destruct (parse_timestamp Date_parse fields) as [ts i2].
  destruct (parse_temperature fields) as [temp i3].
  destruct (parse_humidity fields) as [hum i4].
  destruct (parse_battery fields) as [bat i5].
  simpl. intro H.
  destruct dev as [dev |]; [| reflexivity].
  destruct ts as [ts |]; [| reflexivity].
  destruct temp as [temp |]; [| reflexivity].
  destruct hum as [hum |]; [| reflexivity].
  destruct bat as [bat |]; [| reflexivity].
  destruct (i1 ++ i2 ++ i3 ++ i4 ++ i5); [| reflexivity].
  exfalso. eapply H. reflexivity.
Qed.

Lemma schema_only_objects b d :
  createSensorDataSchema Date_parse b = Parsed d -> exists fields, b = JObj fields.
Proof.
  destruct b; simpl; try discriminate. intros _. eexists; reflexivity.
Qed.

(** A validated payload has a timestamp that parses. *)
Lemma validated_timestamp b d :
  createSensorDataSchema Date_parse b = Parsed d ->
  exists t, Date_parse (timestamp d) = Some t.
Proof.
  intro H. destruct (schema_only_objects b d H) as [fields ->].
  apply schema_accepts in H. destruct H as (_ & H2 & _).
  unfold parse_timestamp in H2.
  destruct (z_string_cases
              (refine (fun val => match Date_parse val with Some _ => true | None => false end)
                      "timestamp must be a valid ISO8601 format")
              (get_field "timestamp" fields) ["timestamp"])
    as [(s & Hv & E) | (_ & E)]; rewrite E in H2; [| discriminate H2].
  injection H2 as -> H2. unfold refine in H2.
  destruct (Date_parse (timestamp d)) as [t |]; [exists t; reflexivity | discriminate H2].
Qed.

(** Each property schema against its precondition. *)
Lemma device_id_parses fields :
  if device_id_ok fields
  then exists s, parse_device_id fields = (Some s, [])
  else snd (parse_device_id fields) <> [].
Proof.
  unfold device_id_ok, parse_device_id.
  destruct (get_field "device_id" fields) as [[| b | x | s | l | f] |]; simpl;
    try discriminate.
  unfold string_min. destruct (String.length s); simpl.
  - discriminate.
  - exists s; reflexivity.
Qed.

Lemma timestamp_parses fields :
  if timestamp_ok Date_parse fields
  then exists s, parse_timestamp Date_parse fields = (Some s, [])
  else snd (parse_timestamp Date_parse fields) <> []
       /\ exists i, In i (snd (parse_timestamp Date_parse fields))
                    /\ path i = ["timestamp"].
Proof.
  unfold timestamp_ok, parse_timestamp.
  destruct (get_field "timestamp" fields) as [[| b | x | s | l | f] |]; simpl;
    try (split; [discriminate | eexists; split; [left; reflexivity | reflexivity]]).
  unfold refine. destruct (Date_parse s); simpl.
  - exists s; reflexivity.
  - split; [discriminate | eexists; split; [left; reflexivity | reflexivity]].
Qed.

Lemma temperature_parses fields :
  if numeric (get_field "temperature" fields)
  then exists x, parse_temperature fields = (Some x, [])
  else snd (parse_temperature fields) <> [].
Proof.
  unfold parse_temperature.
  destruct (get_field "temperature" fields) as [[| b | x | s | l | f] |]; simpl;
    try discriminate.
  destruct (PrimFloat.is_nan x); simpl; [discriminate | exists x; reflexivity].
Qed.

Lemma humidity_parses fields :
  if humidity_ok fields
  then exists x, parse_humidity fields = (Some x, [])
  else snd (parse_humidity fields) <> [].
Proof.
  unfold humidity_ok, parse_humidity.
  destruct (get_field "humidity" fields) as [[| b | x | s | l | f] |]; simpl;
    try discriminate.
  destruct (PrimFloat.is_nan x); simpl; [discriminate |].
  unfold number_min. destruct (PrimFloat.ltb x 0); simpl;
    [discriminate | exists x; reflexivity].
Qed.

Lemma battery_parses fields :
  if battery_ok fields
  then exists x, parse_battery fields = (Some x, [])
  else snd (parse_battery fields) <> [].
Proof.
  unfold battery_ok, parse_battery.
  destruct (get_field "battery" fields) as [[| b | x | s | l | f] |]; simpl;
    try discriminate; try (eexists; reflexivity).
  destruct (PrimFloat.is_nan x); simpl; [discriminate | eexists; reflexivity].
Qed.

Lemma app_not_nil_l {A : Type} (l1 l2 : list A) : l1 <> [] -> l1 ++ l2 <> [].
Proof. destruct l1; [intro H; contradiction H; reflexivity | discriminate]. Qed.

Lemma app_not_nil_r {A : Type} (l1 l2 : list A) : l2 <> [] -> l1 ++ l2 <> [].
Proof. destruct l1; [intro H; exact H | discriminate]. Qed.

(** The schema accepts a body exactly when the preconditions hold, and
    throws a ZodError with at least one issue otherwise. *)
Lemma preconditions_accepted b :
  preconditions Date_parse b = true ->
  exists d, createSensorDataSchema Date_parse b = Parsed d.
Proof.
  destruct b as [| ? | ? | ? | ? | fields]; simpl; try discriminate.
  rewrite !andb_true_iff. intros [[[[H1 H2] H3] H4] H5].
  pose proof (device_id_parses fields) as P1; rewrite H1 in P1.
  pose proof (timestamp_parses fields) as P2; rewrite H2 in P2.
  pose proof (temperature_parses fields) as P3; rewrite H3 in P3.
  pose proof (humidity_parses fields) as P4; rewrite H4 in P4.
  pose proof (battery_parses fields) as P5; rewrite H5 in P5.
  destruct P1 as [dev P1], P2 as [ts P2], P3 as [te P3], P4 as [hu P4], P5 as [ba P5].
  exists (mkSensorData dev ts te hu ba).
  apply schema_accepts; simpl. repeat split; assumption.
Qed.

Lemma violations_rejected b :
  preconditions Date_parse b = false ->
  exists issues, createSensorDataSchema Date_parse b = ThrewZodError issues
                 /\ issues <> [].
Proof.
  destruct b as [| ? | ? | ? | ? | fields];
    try (intros _; eexists; split; [reflexivity | discriminate]).
  intro H.
  assert (Hne : snd (parse_device_id fields) ++ snd (parse_timestamp Date_parse fields)
                ++ snd (parse_temperature fields) ++ snd (parse_humidity fields)
                ++ snd (parse_battery fields) <> []).
  { simpl in H. rewrite !andb_false_iff in H.
    destruct H as [[[[H | H] | H] | H] | H].
    - pose proof (device_id_parses fields) as P; rewrite H in P.
      apply app_not_nil_l; exact P.
    - pose proof (timestamp_parses fields) as P; rewrite H in P.
      apply app_not_nil_r, app_not_nil_l; apply P.
    - pose proof (temperature_parses fields) as P; rewrite H in P.
      apply app_not_nil_r, app_not_nil_r, app_not_nil_l; exact P.
    - pose proof (humidity_parses fields) as P; rewrite H in P.
      apply app_not_nil_r, app_not_nil_r, app_not_nil_r, app_not_nil_l; exact P.
    - pose proof (battery_parses fields) as P; rewrite H in P.
      do 4 apply app_not_nil_r; exact P. }
  eexists; split; [| exact Hne].
  apply schema_rejects. intros d Hd. apply schema_accepts in Hd.
  destruct Hd as (E1 & E2 & E3 & E4 & E5).
  apply Hne. rewrite E1, E2, E3, E4, E5. reflexivity.
Qed.

Lemma accepted_preconditions b d :
  createSensorDataSchema Date_parse b = Parsed d -> preconditions Date_parse b = true.
Proof.
  intro H. destruct (preconditions Date_parse b) eqn:E; [reflexivity |].
  destruct (violations_rejected b E) as (issues & Hi & _).
  rewrite Hi in H; discriminate H.
Qed.

(** The middleware on a rejected body: no event, only the 400 response. *)
Lemma route_rejected b issues :
  createSensorDataSchema Date_parse b = ThrewZodError issues ->
  post_sensor_data Date_parse b =
  Ret (mkResponse 400
         (ValidationBody false "Validation failed" (map detail_of_issue issues))).
Proof. intro H. unfold post_sensor_data, validate. rewrite H. reflexivity. Qed.

(** *** Idempotent submission *)



(** *** The race on the uniqueness constraint *)

(** C2, as the code has it.  A request whose existence check found
    nothing, and which resumes in a world where another request has
    inserted the same (device, instant) meanwhile: the insert is refused
    by the uniqueness constraint, the service throws that error without
    reading the row again, the controller answers 500, and the table is
    left as it was. *)
Theorem C2_violation_propagates (d : SensorData) (t : TimeValue) (w w' : World) :
  Date_parse (timestamp d) = Some t ->
  db_faults w = [] ->
  find (same_key (device_id d) t) (sensor_readings w) = None ->
  db_faults w' = [] ->
  existsb (same_key (device_id d) t) (sensor_readings w') = true ->
  run (fst (step (createSensorReading Date_parse d) w)) w'
    = (Threw (ErrorObj unique_violation_message), w')
  /\ run (fst (step (createSensorData Date_parse d) w)) w'
    = (Returned response_500, w').
Proof.
  intros Ht Hf Hk Hf' Hx.
  unfold createSensorData, createSensorReading. rewrite Ht. simpl.
  rewrite (db_call_nil _ w Hf). unfold db_findOne. rewrite Hk. simpl.
  rewrite (db_call_nil _ w' Hf'). unfold db_saveReading. simpl. rewrite Hx.
  split; reflexivity.
Qed.

(** *** Validation comes first *)

Lemma rejected_issues fields :
  preconditions Date_parse (JObj fields) = false ->
  createSensorDataSchema Date_parse (JObj fields) =
  ThrewZodError (snd (parse_device_id fields) ++ snd (parse_timestamp Date_parse fields)
                 ++ snd (parse_temperature fields) ++ snd (parse_humidity fields)
                 ++ snd (parse_battery fields)).
Proof.
  intro H. apply schema_rejects. intros d Hd.
  apply accepted_preconditions in Hd. rewrite Hd in H; discriminate H.
Qed.

(** C7. A submitted object whose timestamp property is not a string that
    parses as a date is answered 400 with a details entry whose field is
    "timestamp"; one whose humidity is a number below 0 is answered 400;
    in both cases the route is the bare response, with no call to the
    service or the database, and the world is left as it was. *)
Theorem C7_validation_before_service (fields : list (string * JsValue)) (w : World) :
  (timestamp_ok Date_parse fields = false ->
   exists details,
     post_sensor_data Date_parse (JObj fields)
       = Ret (mkResponse 400 (ValidationBody false "Validation failed" details))
     /\ Exists (fun d => field d = "timestamp") details
     /\ run (post_sensor_data Date_parse (JObj fields)) w
        = (Returned (mkResponse 400 (ValidationBody false "Validation failed" details)), w))
  /\ (forall h : float,
        get_field "humidity" fields = Some (JNum h) ->
        PrimFloat.ltb h 0 = true ->
        exists details,
          post_sensor_data Date_parse (JObj fields)
            = Ret (mkResponse 400 (ValidationBody false "Validation failed" details))
          /\ run (post_sensor_data Date_parse (JObj fields)) w
             = (Returned (mkResponse 400 (ValidationBody false "Validation failed" details)),
                w)).
Proof.
  split.
  - intro Hts.
    assert (Hpre : preconditions Date_parse (JObj fields) = false).
    { simpl. rewrite Hts, andb_false_r. reflexivity. }
    pose proof (route_rejected _ _ (rejected_issues fields Hpre)) as Hroute.
    eexists. split; [exact Hroute |]. split; [| rewrite Hroute; reflexivity].
    pose proof (timestamp_parses fields) as P. rewrite Hts in P.
    destruct P as (_ & i & Hin & Hpath).
    apply Exists_exists. exists (detail_of_issue i). split.
    + apply in_map. apply in_or_app; right. apply in_or_app; left. exact Hin.
    + unfold detail_of_issue; simpl. rewrite Hpath. reflexivity.
  - intros h Hh Hneg.
    assert (Hpre : preconditions Date_parse (JObj fields) = false).
    { simpl. unfold humidity_ok. rewrite Hh, Hneg.
      rewrite andb_false_r, andb_false_r. reflexivity. }
    pose proof (route_rejected _ _ (rejected_issues fields Hpre)) as Hroute.
    eexists. split; [exact Hroute | rewrite Hroute; reflexivity].
Qed.

(** *** Telling the failures apart *)

Lemma first_call_fault (d : SensorData) (w : World) m rest :
  db_faults w = Some m :: rest ->
  exists w1, run (createSensorReading Date_parse d) w = (Threw (ErrorObj m), w1)
             /\ sensor_readings w1 = sensor_readings w.
Proof.
  intro H. unfold createSensorReading. rewrite run_bind, run_perform. simpl.
  destruct (db_call_fault (db_findOne (device_id d) (Date_parse (timestamp d))) w m rest H)
    as (w1 & E & Hs & _).
  rewrite E. exists w1; split; [reflexivity | exact Hs].
Qed.

(** C8, as the code has it.  A body that violates the preconditions is
    answered 400 with a non-empty details list and nothing else happens;
    a body that meets them reaches the service and is never answered 400.
    When the service throws, the answer is 503 exactly when the thrown
    value is an Error whose message contains "connect" or "Connection",
    and 500 otherwise: a failure of the first database call with message
    [m] is answered by that test on [m].  When the service returns, the
    answer is 201 or 200. *)
Theorem C8_failure_kinds (b : JsValue) (w : World) :
  (preconditions Date_parse b = false ->
   exists details,
     details <> []
     /\ post_sensor_data Date_parse b
        = Ret (mkResponse 400 (ValidationBody false "Validation failed" details)))
  /\ (preconditions Date_parse b = true ->
      exists d,
        createSensorDataSchema Date_parse b = Parsed d
        /\ (forall e w1,
              run (createSensorReading Date_parse d) w = (Threw e, w1) ->
              run (post_sensor_data Date_parse b) w
              = (Returned (if instanceof_Error e
                              && (includes "connect" (error_message e)
                                  || includes "Connection" (error_message e))
                           then response_503 else response_500), w1))
        /\ (forall res w1,
              run (createSensorReading Date_parse d) w = (Returned res, w1) ->
              exists resp,
                run (post_sensor_data Date_parse b) w = (Returned resp, w1)
                /\ http_status resp = (if isNew res then 201 else 200))
        /\ (forall m rest,
              db_faults w = Some m :: rest ->
              fst (run (post_sensor_data Date_parse b) w)
              = Returned (if includes "connect" m || includes "Connection" m
                          then response_503 else response_500))).
Proof.
  split.
  - intro H. destruct (violations_rejected b H) as (issues & Hi & Hne).
    exists (map detail_of_issue issues). split.
    + destruct issues; [contradiction Hne; reflexivity | discriminate].
    + apply route_rejected; exact Hi.
  - intro H. destruct (preconditions_accepted b H) as [d Hd].
    exists d. split; [exact Hd |]. rewrite (route_parsed b d Hd).
    split; [| split].
    + intros e w1 He. apply controller_threw; exact He.
    + intros res w1 Hres. eexists. split; [apply controller_returned; exact Hres |].
      reflexivity.
    + intros m rest Hm. destruct (first_call_fault d w m rest Hm) as (w1 & E & _).
      rewrite (controller_threw d w w1 _ E). reflexivity.
Qed.

End SensorProperties.

(** *** Instances on the sample requests *)





(** C2, as stated, fails.  Two submissions of [sample_data] race: each
    runs its existence check before either inserts.  The first insert
    goes through; the second is refused by the uniqueness constraint, and
    the second caller gets the thrown error from the service and 500 from
    the controller, not the existing record. *)
Lemma C2_race_counterexample :
  exists first w',
    interleave [true; false] (createSensorReading iso_parse sample_data)
               (createSensorReading iso_parse sample_data) fresh_world
      = (Returned first, Threw (ErrorObj unique_violation_message), w')
    /\ sensor_readings w' = [result_data first]
    /\ interleave [true; false] (post_sensor_data iso_parse sample_body)
                  (post_sensor_data iso_parse sample_body) fresh_world
       = (Returned (mkResponse 201
                      (SensorBody true "New record created" (result_id first)
                                  (result_data first))),
          Returned response_500, w').
Proof.
  do 2 eexists. split; [vm_compute; reflexivity |].
  split; [reflexivity | vm_compute; reflexivity].
Qed.

Lemma C2_violation_propagates_witness :
  iso_parse (timestamp sample_data) = Some 1766779200000
  /\ find (same_key "sensor-001" 1766779200000) (sensor_readings fresh_world) = None
  /\ existsb (same_key "sensor-001" 1766779200000) (sensor_readings raced_world) = true
  /\ run (fst (step (createSensorReading iso_parse sample_data) fresh_world)) raced_world
     = (Threw (ErrorObj unique_violation_message), raced_world)
  /\ run (fst (step (createSensorData iso_parse sample_data) fresh_world)) raced_world
     = (Returned response_500, raced_world).
Proof.
  split; [reflexivity |]. split; [reflexivity |]. split; [reflexivity |].
  exact (C2_violation_propagates iso_parse sample_data 1766779200000 fresh_world
           raced_world eq_refl eq_refl eq_refl eq_refl eq_refl).
Defined.

Lemma C7_validation_before_service_witness :
  timestamp_ok iso_parse bad_timestamp_fields = false
  /\ (exists details,
        post_sensor_data iso_parse (JObj bad_timestamp_fields)
          = Ret (mkResponse 400 (ValidationBody false "Validation failed" details))
        /\ Exists (fun d => field d = "timestamp") details
        /\ run (post_sensor_data iso_parse (JObj bad_timestamp_fields)) fresh_world
           = (Returned (mkResponse 400 (ValidationBody false "Validation failed" details)),
              fresh_world))
  /\ PrimFloat.ltb (-1)%float 0 = true
  /\ (exists details,
        post_sensor_data iso_parse (JObj negative_humidity_fields)
          = Ret (mkResponse 400 (ValidationBody false "Validation failed" details))
        /\ run (post_sensor_data iso_parse (JObj negative_humidity_fields)) fresh_world
           = (Returned (mkResponse 400 (ValidationBody false "Validation failed" details)),
              fresh_world)).
Proof.
  split; [reflexivity |].
  split; [exact (proj1 (C7_validation_before_service iso_parse bad_timestamp_fields
                          fresh_world) eq_refl) |].
  split; [reflexivity |].
  exact (proj2 (C7_validation_before_service iso_parse negative_humidity_fields
                  fresh_world) (-1)%float eq_refl eq_refl).
Defined.

(** C8, as stated, fails.  The database host does not resolve, so the
    database cannot be reached, and the valid submission is answered with
    the generic 500: the driver's message has neither "connect" nor
    "Connection" in it. *)
Lemma C8_unreachable_counterexample :
  preconditions iso_parse sample_body = true
  /\ db_faults unresolved_host_world = [Some "getaddrinfo ENOTFOUND postgres"]
  /\ fst (run (post_sensor_data iso_parse sample_body) unresolved_host_world)
     = Returned response_500
  /\ http_status response_500 = 500.
Proof. repeat split; reflexivity. Qed.

Lemma C8_failure_kinds_witness :
  preconditions iso_parse (JObj negative_humidity_fields) = false
  /\ (exists details,
        details <> []
        /\ post_sensor_data iso_parse (JObj negative_humidity_fields)
           = Ret (mkResponse 400 (ValidationBody false "Validation failed" details)))
  /\ preconditions iso_parse sample_body = true
  /\ db_faults refused_world = [Some "connect ECONNREFUSED 127.0.0.1:5432"]
  /\ fst (run (post_sensor_data iso_parse sample_body) refused_world)
     = Returned response_503.
Proof.
  split; [reflexivity |].
  split; [exact (proj1 (C8_failure_kinds iso_parse (JObj negative_humidity_fields)
                          fresh_world) eq_refl) |].
  split; [reflexivity |]. split; [reflexivity |].
  destruct (proj2 (C8_failure_kinds iso_parse sample_body refused_world) eq_refl)
    as (d & _ & _ & _ & H).
  exact (H _ _ eq_refl).
Defined.

(** ** Health check *)

Lemma healthOf_service (dbResult : Settled DbHealth) (mqttResult : Settled MqttHealth) :
  let h := healthOf dbResult mqttResult in
  (service h = ServiceOk <->
   db_status (db h) = Connected /\ mqtt_status (mqtt h) = Connected)
  /\ (service h = ServiceDegraded <->
      ~ (db_status (db h) = Connected /\ mqtt_status (mqtt h) = Connected))
  /\ (isHealthy h = true <-> service h = ServiceOk).
Proof.
  unfold healthOf; simpl.
  destruct dbResult as [[[] l e] | e]; destruct mqttResult as [[[] e'] | e']; simpl;
    repeat split; intros; try reflexivity; try discriminate;
    try (destruct H; discriminate);
    try (intros [H1 H2]; discriminate);
    try (exfalso; apply H; split; reflexivity).
Qed.

(** The check returns in every world, and each section is what its own
    probe found. *)
Lemma performHealthCheck_returns (w : World) :
  exists (dbHealth : DbHealth) (mqttHealth : MqttHealth) (w' : World),
    run performHealthCheck w
      = (Returned (healthOf (Fulfilled dbHealth) (Fulfilled mqttHealth)), w')
    /\ db_status dbHealth = status_of_flag (database_reachable w)
    /\ mqtt_status mqttHealth = status_of_flag (broker_connected w).
Proof.
  destruct w as [sr dc nu faults clk cl pub].
  unfold database_reachable, broker_connected; simpl.
  destruct cl as [[[] thr] |]; destruct faults as [| [m |] faults]; simpl;
    do 3 eexists; (split; [reflexivity | split; reflexivity]).
Qed.

Lemma getStatus_of_check (w w' : World) (h : HealthStatus) :
  run performHealthCheck w = (Returned h, w') ->
  run getStatus w
  = (Returned (mkResponse (if isHealthy h then 200 else 503)
                 (HealthBody (service h)
                    (mkDbHealth (db_status (db h)) (latency_ms (db h))
                                (truthy (db_error (db h))))
                    (mkMqttHealth (mqtt_status (mqtt h)) (truthy (mqtt_error (mqtt h)))))),
     w').
Proof.
  intro H. unfold getStatus. rewrite run_try_catch, run_bind, H. reflexivity.
Qed.

(** C5. In every world the health check returns; its aggregate is ok
    exactly when the database section and the broker section both say
    connected, and degraded otherwise; the endpoint answers 200 exactly
    when the aggregate is ok and 503 exactly when it is degraded: 200 when
    the database answers the probe and the broker client is connected,
    503 as soon as one of the two is not. *)
Theorem C5_health_aggregate (w : World) :
  exists (h : HealthStatus) (resp : Response) (w' : World),
    run performHealthCheck w = (Returned h, w')
    /\ run getStatus w = (Returned resp, w')
    /\ (service h = ServiceOk <->
        db_status (db h) = Connected /\ mqtt_status (mqtt h) = Connected)
    /\ (service h = ServiceDegraded <->
        ~ (db_status (db h) = Connected /\ mqtt_status (mqtt h) = Connected))
    /\ (http_status resp = 200 <-> service h = ServiceOk)
    /\ (http_status resp = 503 <-> service h = ServiceDegraded)
    /\ (exists dbView mqttView, body resp = HealthBody (service h) dbView mqttView)
    /\ http_status resp
       = (if database_reachable w && broker_connected w then 200 else 503).
Proof.
  destruct (performHealthCheck_returns w) as (dbh & mqh & w' & Hrun & Hdb & Hmq).
  pose proof (healthOf_service (Fulfilled dbh) (Fulfilled mqh)) as Hs. cbv zeta in Hs.
  assert (Hw : isHealthy (healthOf (Fulfilled dbh) (Fulfilled mqh))
               = database_reachable w && broker_connected w).
  { unfold healthOf; simpl. rewrite Hdb, Hmq.
    destruct (database_reachable w), (broker_connected w); reflexivity. }
  remember (healthOf (Fulfilled dbh) (Fulfilled mqh)) as h eqn:Eh. clear Eh.
  destruct Hs as (Hok & Hdeg & Hflag).
  exists h. eexists. exists w'.
  split; [exact Hrun |]. split; [exact (getStatus_of_check w w' h Hrun) |].
  split; [exact Hok |]. split; [exact Hdeg |].
  cbn [http_status body]. rewrite <- Hw.
  destruct (isHealthy h) eqn:E.
  - assert (Hs : service h = ServiceOk) by (apply Hflag; reflexivity).
    rewrite Hs. repeat split; intros; try reflexivity; try discriminate.
    do 2 eexists; reflexivity.
  - assert (Hs : service h = ServiceDegraded).
    { destruct (service h) eqn:Es; [| reflexivity].
      destruct Hflag as [_ Hb]. discriminate (Hb eq_refl). }
    rewrite Hs. repeat split; intros; try reflexivity; try discriminate.
    do 2 eexists; reflexivity.
Qed.

(** C6. In every world, whatever the database probe and the broker probe
    find, the health check returns a result with a db section and an mqtt
    section; the db section says connected exactly when the database
    answered the probe, the mqtt section says connected exactly when the
    broker client exists and is connected, each whatever the other probe
    found, and the endpoint reports both.  A probe that settles as
    rejected is reported as disconnected next to the other probe's own
    result. *)
Theorem C6_probes_independent (w : World) :
  (exists (h : HealthStatus) (resp : Response) (w' : World),
     run performHealthCheck w = (Returned h, w')
     /\ db_status (db h) = status_of_flag (database_reachable w)
     /\ mqtt_status (mqtt h) = status_of_flag (broker_connected w)
     /\ run getStatus w = (Returned resp, w')
     /\ exists dbView mqttView,
          body resp = HealthBody (service h) dbView mqttView
          /\ db_status dbView = status_of_flag (database_reachable w)
          /\ mqtt_status mqttView = status_of_flag (broker_connected w))
  /\ (forall (reason : JsThrown) (mqttHealth : MqttHealth),
        mqtt (healthOf (Rejected reason) (Fulfilled mqttHealth)) = mqttHealth
        /\ db_status (db (healthOf (Rejected reason) (Fulfilled mqttHealth)))
           = Disconnected)
  /\ (forall (dbHealth : DbHealth) (reason : JsThrown),
        db (healthOf (Fulfilled dbHealth) (Rejected reason)) = dbHealth
        /\ mqtt_status (mqtt (healthOf (Fulfilled dbHealth) (Rejected reason)))
           = Disconnected).
Proof.
  split; [| split; intros; split; reflexivity].
  destruct (performHealthCheck_returns w) as (dbh & mqh & w' & Hrun & Hdb & Hmq).
  exists (healthOf (Fulfilled dbh) (Fulfilled mqh)). eexists. exists w'.
  split; [exact Hrun |]. split; [exact Hdb |]. split; [exact Hmq |].
  split; [exact (getStatus_of_check w w' _ Hrun) |].
  do 2 eexists. simpl. split; [reflexivity |]. split; assumption.
Qed.

(** ** Device commands *)

Lemma map_unused (id : Uuid) (d : DeviceCommand) (dc : list DeviceCommand) :
  find (has_id id) dc = None ->
  map (fun row => if has_id id row then d else row) dc = dc.
Proof.
  induction dc as [| x dc IH]; simpl; [reflexivity |].
  destruct (has_id id x); [discriminate |]. intro H. rewrite (IH H). reflexivity.
Qed.

Lemma update_new_row (id : Uuid) (d row : DeviceCommand) (dc : list DeviceCommand) :
  find (has_id id) dc = None -> has_id id row = true ->
  map (fun r => if has_id id r then d else r) (dc ++ [row]) = dc ++ [d].
Proof.
  intros Hn Hr. rewrite map_app, (map_unused id d dc Hn). simpl. rewrite Hr. reflexivity.
Qed.

Lemma has_id_refl id dev c s e t : has_id id (mkDeviceCommand id dev c s e t) = true.
Proof. unfold has_id; simpl. apply N.eqb_refl. Qed.

(** Runs the database calls on a table whose new row is the last one;
    [Hn] says that no older row has its id. *)
Ltac device_step Hn :=
  repeat first
    [ progress simpl
    | progress unfold db_call, db_saveCommand, db_insertCommand, next_fault, tick,
        set_device_commands, status_of, errorMessage_of
    | rewrite Hn
    | rewrite (find_app_new _ _ _ Hn (has_id_refl _ _ _ _ _ _))
    | rewrite (update_new_row _ _ _ _ Hn (has_id_refl _ _ _ _ _ _)) ].

(** C4, as the code has it.  When the insert of the command and the
    write of its status that follows both succeed: if
    [mqttService.publish] throws an Error, the command's row ends with
    status error and the Error's message as errorMessage, the service
    rethrows the Error and the controller answers 500 with status "error"
    and that message; if it throws something that is not an Error, the
    row ends as error with "Unknown MQTT error" and the answer is the
    generic 500; if the publish goes through, the row and the returned
    record are published and the answer is 201.  The errorMessage stored
    is empty only when an Error with an empty message was thrown; the
    Error the service's own gateway throws, without a client, has the
    message "MQTT client not connected". *)
Theorem C4_publish_outcome (data : DeviceControlData) (w : World) :
  hd None (db_faults w) = None ->
  hd None (tl (db_faults w)) = None ->
  find (has_id (next_uuid w)) (device_commands w) = None ->
  let id := next_uuid w in
  match publish_raises w with
  | Some (ErrorObj message) =>
      exists w',
        run (sendControlCommand data) w = (Threw (ErrorObj message), w')
        /\ status_of id w' = Some ERROR
        /\ errorMessage_of id w' = Some message
        /\ run (DeviceController_sendControlCommand data) w
           = (Returned (mkResponse 500
                          (ErrorBody false "MQTT publish failed" (Some message)
                                     (Some "error"))), w')
  | Some (NonError v) =>
      exists w',
        run (sendControlCommand data) w = (Threw (NonError v), w')
        /\ status_of id w' = Some ERROR
        /\ errorMessage_of id w' = Some "Unknown MQTT error"
        /\ run (DeviceController_sendControlCommand data) w
           = (Returned (mkResponse 500
                          (ErrorBody false "Internal server error"
                             (Some "Failed to process device control command") None)),
              w')
  | None =>
      exists w' saved,
        run (sendControlCommand data) w = (Returned saved, w')
        /\ co_id saved = Some id
        /\ co_status saved = PUBLISHED
        /\ status_of id w' = Some PUBLISHED
        /\ errorMessage_of id w' = None
        /\ run (DeviceController_sendControlCommand data) w
           = (Returned (mkResponse 201
                          (CommandBody true "Command sent successfully" PUBLISHED
                             (mkCommandView (Some id) (dcd_device_id data)
                                (dcd_command data) PUBLISHED (co_createdAt saved)))),
              w')
  end
  /\ (forall e,
        publish_raises w = Some e ->
        exists stored,
          errorMessage_of id (snd (run (sendControlCommand data) w)) = Some stored
          /\ (stored = EmptyString <-> e = ErrorObj EmptyString))
  /\ (mqtt_client w = None ->
      publish_raises w = Some (ErrorObj "MQTT client not connected")).
Proof.
  intros Hf1 Hf2 Hn id.
  match goal with |- ?outcomes /\ _ => assert (Hmain : outcomes) end.
  { unfold DeviceController_sendControlCommand.
    rewrite run_try_catch, run_bind.
    destruct w as [sr dc nu faults clk cl pub]. simpl in *. subst id.
    unfold publish_raises; simpl.
    destruct faults as [| [m1 |] [| [m2 |] faults]]; simpl in Hf1, Hf2;
      try discriminate Hf1; try discriminate Hf2;
      destruct cl as [[conn [[m | v] |]] |]; device_step Hn.
    all: repeat eexists; device_step Hn; reflexivity. }
  split; [exact Hmain |].
  split; [| intro Hc; unfold publish_raises; rewrite Hc; reflexivity].
  intros e He. rewrite He in Hmain.
  destruct e as [m | v]; destruct Hmain as (w' & Hrun & _ & Hmsg & _);
    rewrite Hrun; cbn [snd]; eexists; (split; [exact Hmsg |]).
  - split; [intros -> | intro E; injection E as ->]; reflexivity.
  - split; intro E; discriminate E.
Qed.

(** C3, as the code has it.  In every world, with or without database
    faults, the persisted status of the command this invocation creates
    only moves forward: absent, then queued, then published or error, and
    a command returned to the caller is persisted as published.  When
    every database call of the invocation succeeds, it completes with the
    status persisted as published (returning) or as error (rethrowing),
    never queued. *)
Theorem C3_status_forward (data : DeviceControlData) (w : World) :
  find (has_id (next_uuid w)) (device_commands w) = None ->
  let id := next_uuid w in
  chain forward (status_of id w)
        (map (status_of id) (trace (sendControlCommand data) w)) = true
  /\ (forall saved w',
        run (sendControlCommand data) w = (Returned saved, w') ->
        status_of id w' = Some PUBLISHED /\ co_status saved = PUBLISHED)
  /\ (db_faults w = [] ->
      exists out w',
        run (sendControlCommand data) w = (out, w')
        /\ ((exists saved, out = Returned saved /\ status_of id w' = Some PUBLISHED)
            \/ (exists e, out = Threw e /\ status_of id w' = Some ERROR))).
Proof.
  intros Hn id. destruct w as [sr dc nu faults clk cl pub]. simpl in *. subst id.
  split; [| split].
  - destruct faults as [| [m1 |] [| [m2 |] [| [m3 |] faults]]];
      destruct cl as [[conn [[m | v] |]] |]; device_step Hn; reflexivity.
  - intros saved w'.
    destruct faults as [| [m1 |] [| [m2 |] [| [m3 |] faults]]];
      destruct cl as [[conn [[m | v] |]] |]; device_step Hn;
      intro H; inversion H; subst; device_step Hn; split; reflexivity.
  - intros ->.
    destruct cl as [[conn [[m | v] |]] |]; device_step Hn;
      do 2 eexists; (split; [reflexivity |]); device_step Hn;
      first [ left; eexists; split; reflexivity | right; eexists; split; reflexivity ].
Qed.

Lemma C4_publish_outcome_witness :
  publish_raises no_client_world = Some (ErrorObj "MQTT client not connected")
  /\ publish_raises fresh_world = None
  /\ hd None (db_faults no_client_world) = None
  /\ hd None (tl (db_faults no_client_world)) = None
  /\ (exists w',
        run (sendControlCommand sample_command) no_client_world
          = (Threw (ErrorObj "MQTT client not connected"), w')
        /\ status_of 1%N w' = Some ERROR
        /\ errorMessage_of 1%N w' = Some "MQTT client not connected"
        /\ run (DeviceController_sendControlCommand sample_command) no_client_world
           = (Returned (mkResponse 500
                          (ErrorBody false "MQTT publish failed"
                             (Some "MQTT client not connected") (Some "error"))), w'))
  /\ (exists w' saved,
        run (sendControlCommand sample_command) fresh_world = (Returned saved, w')
        /\ co_id saved = Some 1%N
        /\ co_status saved = PUBLISHED
        /\ status_of 1%N w' = Some PUBLISHED
        /\ errorMessage_of 1%N w' = None
        /\ run (DeviceController_sendControlCommand sample_command) fresh_world
           = (Returned (mkResponse 201
                          (CommandBody true "Command sent successfully" PUBLISHED
                             (mkCommandView (Some 1%N) "greenhouse-01" ON PUBLISHED
                                            (co_createdAt saved)))), w')).
Proof.
  split; [reflexivity |]. split; [reflexivity |].
  split; [reflexivity |]. split; [reflexivity |].
  split.
  - exact (proj1 (C4_publish_outcome sample_command no_client_world eq_refl eq_refl
                    eq_refl)).
  - exact (proj1 (C4_publish_outcome sample_command fresh_world eq_refl eq_refl eq_refl)).
Defined.

(** C4, as stated, fails.  In the first world the broker client is
    missing, so the publish throws, and the connection to the database is
    lost before the catch block writes the status: the row stays queued
    with no errorMessage, and what the caller gets is the database error.
    In the second the message is handed to the broker, and the connection
    is lost before status published is written: the publish succeeded,
    yet the row ends as error and the answer is 500, not 201. *)
Lemma C4_status_write_counterexample :
  (publish_raises lost_connection_world = Some (ErrorObj "MQTT client not connected")
   /\ exists w',
        run (sendControlCommand sample_command) lost_connection_world
          = (Threw (ErrorObj "Connection terminated unexpectedly"), w')
        /\ status_of 1%N w' = Some QUEUED
        /\ errorMessage_of 1%N w' = None
        /\ run (DeviceController_sendControlCommand sample_command) lost_connection_world
           = (Returned (mkResponse 500
                          (ErrorBody false "MQTT publish failed"
                             (Some "Connection terminated unexpectedly")
                             (Some "error"))), w'))
  /\ (publish_raises lost_write_world = None
      /\ exists w' message,
           run (sendControlCommand sample_command) lost_write_world
             = (Threw (ErrorObj "Connection terminated unexpectedly"), w')
           /\ published w' = [("greenhouse/control/greenhouse-01", message)]
           /\ status_of 1%N w' = Some ERROR
           /\ errorMessage_of 1%N w' = Some "Connection terminated unexpectedly"
           /\ run (DeviceController_sendControlCommand sample_command) lost_write_world
              = (Returned (mkResponse 500
                             (ErrorBody false "MQTT publish failed"
                                (Some "Connection terminated unexpectedly")
                                (Some "error"))), w')).
Proof.
  split; (split; [reflexivity |]).
  - eexists. split; [vm_compute; reflexivity |]. split; [reflexivity |].
    split; [reflexivity | vm_compute; reflexivity].
  - do 2 eexists. split; [vm_compute; reflexivity |]. split; [reflexivity |].
    split; [reflexivity |]. split; [reflexivity | vm_compute; reflexivity].
Qed.

(** C3, as stated, fails.  The insert goes through, the broker client is
    missing so the publish throws, and the connection to the database is
    lost before the catch block writes the status: the invocation
    completes by throwing the database error and the row stays queued. *)
Lemma C3_left_queued_counterexample :
  exists w',
    run (sendControlCommand sample_command) lost_connection_world
      = (Threw (ErrorObj "Connection terminated unexpectedly"), w')
    /\ status_of 1%N w' = Some QUEUED
    /\ errorMessage_of 1%N w' = None.
Proof. eexists. split; [vm_compute; reflexivity | split; reflexivity]. Qed.

Lemma C3_status_forward_witness :
  find (has_id (next_uuid fresh_world)) (device_commands fresh_world) = None
  /\ db_faults fresh_world = []
  /\ chain forward (status_of 1%N fresh_world)
           (map (status_of 1%N) (trace (sendControlCommand sample_command) fresh_world))
     = true
  /\ exists out w',
       run (sendControlCommand sample_command) fresh_world = (out, w')
       /\ ((exists saved, out = Returned saved /\ status_of 1%N w' = Some PUBLISHED)
           \/ (exists e, out = Threw e /\ status_of 1%N w' = Some ERROR)).
Proof.
  split; [reflexivity |]. split; [reflexivity |].
  pose proof (C3_status_forward sample_command fresh_world eq_refl) as H.
  cbv zeta in H. destruct H as (H1 & _ & H3).
  split; [exact H1 | exact (H3 eq_refl)].
Defined.

(** *** The published message *)

Lemma digit_char_cases (x : Z) :
  In (digit_char x) ["0"; "1"; "2"; "3"; "4"; "5"; "6"; "7"; "8"; "9"]%char.
Proof.
  unfold digit_char.
  pose proof (Z.mod_pos_bound x 10 ltac:(lia)) as Hb.
  remember (x mod 10) as k eqn:Ek. clear Ek.
  assert (Hk : k = 0 \/ k = 1 \/ k = 2 \/ k = 3 \/ k = 4 \/ k = 5 \/ k = 6
               \/ k = 7 \/ k = 8 \/ k = 9) by lia.
  repeat (destruct Hk as [-> | Hk]; [simpl; tauto |]). subst k; simpl; tauto.
Qed.

Lemma is_digit_digit_char (x : Z) : is_digit (digit_char x) = true.
Proof.
  pose proof (digit_char_cases x) as H. simpl in H.
  repeat (destruct H as [<- | H]; [reflexivity |]). contradiction H.
Qed.

Lemma quote_digit (x : Z) (rest : string) :
  quote_chars (String (digit_char x) rest) = String (digit_char x) (quote_chars rest).
Proof.
  pose proof (digit_char_cases x) as H. simpl in H.
  repeat (destruct H as [<- | H]; [reflexivity |]). contradiction H.
Qed.

Lemma pad_succ (n : nat) (x : Z) (tail : string) :
  pad (S n) x tail = pad n (x / 10) (String (digit_char x) tail).
Proof. reflexivity. Qed.

Lemma quote_pad (n : nat) (x : Z) (tail : string) :
  quote_chars (pad n x tail) = pad n x (quote_chars tail).
Proof.
  revert x tail; induction n as [| n IH]; intros x tail; [reflexivity |].
  rewrite !pad_succ, IH, quote_digit. reflexivity.
Qed.

Lemma all_digits_pad (n k : nat) (x : Z) (tail : string) :
  all_digits (n + k) (pad n x tail) = all_digits k tail.
Proof.
  revert k x tail; induction n as [| n IH]; intros k x tail; [reflexivity |].
  rewrite pad_succ. replace (S n + k)%nat with (n + S k)%nat by lia.
  rewrite IH. cbn [all_digits]. rewrite is_digit_digit_char. reflexivity.
Qed.

Lemma all_digits_pad0 (n : nat) (x : Z) (tail : string) :
  all_digits n (pad n x tail) = Some tail.
Proof.
  pose proof (all_digits_pad n 0 x tail) as H. rewrite Nat.add_0_r in H. exact H.
Qed.

Lemma pad_head (n : nat) (x : Z) (tail : string) :
  exists c s, pad (S n) x tail = String c s /\ is_digit c = true.
Proof.
  revert x tail; induction n as [| n IH]; intros x tail.
  - exists (digit_char x), tail. split; [reflexivity | apply is_digit_digit_char].
  - rewrite pad_succ. apply IH.
Qed.

Lemma year_digits_of_digit (c : ascii) (s : string) :
  is_digit c = true -> year_digits (String c s) = all_digits 4 (String c s).
Proof.
  destruct c as [[] [] [] [] [] [] [] []]; intro H; try discriminate H; reflexivity.
Qed.

Lemma year_digits_pad4 (y : Z) (rest : string) : year_digits (pad 4 y rest) = Some rest.
Proof.
  destruct (pad_head 3 y rest) as (c & s & E & Hc).
  pose proof (all_digits_pad0 4 y rest) as H4.
  rewrite E in *. rewrite (year_digits_of_digit c s Hc). exact H4.
Qed.

(** The text of a time value needs no escaping inside a JSON string. *)
Lemma quote_toISOString (t : TimeValue) : quote_chars (toISOString t) = toISOString t.
Proof.
  unfold toISOString. destruct (civil_from_days (t / msPerDay)) as [[y m] d].
  assert (Hlit : forall (c : ascii) (r : string),
             In c ["-"; "T"; ":"; "."; "Z"; "+"]%char ->
             quote_chars (String c r) = String c (quote_chars r)).
  { intros c r H. simpl in H.
    repeat (destruct H as [<- | H]; [reflexivity |]). contradiction H. }
  destruct ((0 <=? y) && (y <=? 9999)); [| destruct (y <? 0)];
    repeat first [ rewrite quote_pad | rewrite Hlit by (simpl; tauto) ]; reflexivity.
Qed.

Lemma toISOString_shape (t : TimeValue) : iso8601_utc_shape (toISOString t) = true.
Proof.
  unfold toISOString. destruct (civil_from_days (t / msPerDay)) as [[y m] d].
  unfold iso8601_utc_shape.
  destruct ((0 <=? y) && (y <=? 9999)); [| destruct (y <? 0)].
  - rewrite year_digits_pad4.
    cbn [obind expect Ascii.eqb Bool.eqb]. repeat (rewrite all_digits_pad0; cbn [obind expect Ascii.eqb Bool.eqb]).
    reflexivity.
  - cbn [year_digits]. rewrite all_digits_pad0.
    cbn [obind expect Ascii.eqb Bool.eqb]. repeat (rewrite all_digits_pad0; cbn [obind expect Ascii.eqb Bool.eqb]).
    reflexivity.
  - cbn [year_digits]. rewrite all_digits_pad0.
    cbn [obind expect Ascii.eqb Bool.eqb]. repeat (rewrite all_digits_pad0; cbn [obind expect Ascii.eqb Bool.eqb]).
    reflexivity.
Qed.

(** The civil date of a day number is a date of the calendar, and the day
    number is recovered from it. *)
Lemma civil_roundtrip (days : Z) :
  let '(y, m, d) := civil_from_days days in
  1 <= m <= 12 /\ 1 <= d <= 31 /\ days_from_civil y m d = days.
Proof.
  unfold civil_from_days, days_from_civil.
  set (z := days + 719468).
  set (era := z / 146097).
  set (doe := z - era * 146097).
  assert (Hdoe : 0 <= doe < 146097).
  { subst doe era. Z.to_euclidean_division_equations. lia. }
  set (yoe := (doe - doe / 1460 + doe / 36524 - doe / 146096) / 365).
  assert (Hyoe : 0 <= yoe <= 399).
  { subst yoe. Z.to_euclidean_division_equations. lia. }
  set (doy := doe - (365 * yoe + yoe / 4 - yoe / 100)).
  assert (Hdoy : 0 <= doy <= 365).
  { subst doy yoe. Z.to_euclidean_division_equations. lia. }
  set (mp := (5 * doy + 2) / 153).
  assert (Hmp : 0 <= mp <= 11).
  { subst mp. Z.to_euclidean_division_equations. lia. }
  set (d := doy - (153 * mp + 2) / 5 + 1).
  assert (Hd : 1 <= d <= 31).
  { subst d mp. Z.to_euclidean_division_equations. lia. }
  destruct (Z.ltb_spec mp 10) as [Hlt | Hge]; cbv iota.
  - (* March to December *)
    destruct (Z.leb_spec (mp + 3) 2) as [Hm | Hm]; [lia |]; cbv iota.
    destruct (Z.ltb_spec 2 (mp + 3)) as [Hm' | Hm']; [| lia]; cbv iota.
    split; [lia |]. split; [exact Hd |].
    replace (mp + 3 - 3) with mp by lia. rewrite Z.add_0_r.
    replace ((yoe + era * 400) / 400) with era
      by (Z.to_euclidean_division_equations; lia).
    replace (yoe + era * 400 - era * 400) with yoe by lia.
    subst d doy doe z. lia.
  - destruct (Z.leb_spec (mp - 9) 2) as [Hm | Hm]; [| lia]; cbv iota.
    destruct (Z.ltb_spec 2 (mp - 9)) as [Hm' | Hm']; [lia |]; cbv iota.
    split; [lia |]. split; [exact Hd |].
    replace (mp - 9 + 9) with mp by lia.
    replace (yoe + era * 400 + 1 - 1) with (yoe + era * 400) by lia.
    replace ((yoe + era * 400) / 400) with era
      by (Z.to_euclidean_division_equations; lia).
    replace (yoe + era * 400 - era * 400) with yoe by lia.
    subst d doy doe z. lia.
Qed.

(** Reading back the digits that [pad] wrote. *)
Lemma digit_of_digit_char (x : Z) : digit_of (digit_char x) = Some (x mod 10).
Proof.
  unfold digit_char.
  pose proof (Z.mod_pos_bound x 10 ltac:(lia)) as Hb.
  remember (x mod 10) as k eqn:Ek. clear Ek.
  assert (Hk : k = 0 \/ k = 1 \/ k = 2 \/ k = 3 \/ k = 4 \/ k = 5 \/ k = 6
               \/ k = 7 \/ k = 8 \/ k = 9) by lia.
  repeat (destruct Hk as [-> | Hk]; [reflexivity |]). subst k; reflexivity.
Qed.

Lemma take_digits_pad (n k : nat) (acc x : Z) (s : string) :
  take_digits (n + k) acc (pad n x s)
  = take_digits k (acc * 10 ^ Z.of_nat n + x mod 10 ^ Z.of_nat n) s.
Proof.
  revert k acc x s; induction n as [| n IH]; intros k acc x s.
  - simpl. rewrite Z.mod_1_r. f_equal. lia.
  - rewrite pad_succ. replace (S n + k)%nat with (n + S k)%nat by lia.
    rewrite IH. cbn [take_digits]. rewrite digit_of_digit_char. f_equal.
    rewrite Nat2Z.inj_succ, Z.pow_succ_r by lia.
    rewrite (Z.rem_mul_r x 10 (10 ^ Z.of_nat n)) by lia. lia.
Qed.

Lemma take_digits_pad_exact (n : nat) (x : Z) (s : string) :
  0 <= x < 10 ^ Z.of_nat n -> take_digits n 0 (pad n x s) = Some (x, s).
Proof.
  intro H. pose proof (take_digits_pad n 0 0 x s) as E.
  rewrite Nat.add_0_r in E. rewrite E. cbn [take_digits].
  rewrite Z.mod_small by exact H. reflexivity.
Qed.

(** The text of a time value in a four-digit year reads back as that
    time value. *)
Lemma toISOString_parses (t : TimeValue) :
  0 <= year_of t <= 9999 -> iso_parse (toISOString t) = Some t.
Proof.
  unfold year_of, toISOString. intro Hy.
  pose proof (civil_roundtrip (t / msPerDay)) as Hc.
  destruct (civil_from_days (t / msPerDay)) as [[y m] d]. simpl in Hy.
  destruct Hc as (Hm & Hd & Hdays).
  replace ((0 <=? y) && (y <=? 9999)) with true
    by (symmetry; apply andb_true_iff; split; apply Z.leb_le; lia).
  pose proof (Z.mod_pos_bound t msPerDay ltac:(unfold msPerDay; lia)) as Hms.
  remember (t mod msPerDay) as ms eqn:Ems.
  unfold msPerDay in Hms.
  unfold iso_parse.
  rewrite take_digits_pad_exact by (simpl; lia). cbn [obind expect Ascii.eqb Bool.eqb].
  rewrite take_digits_pad_exact by (simpl; lia). cbn [obind expect Ascii.eqb Bool.eqb].
  rewrite take_digits_pad_exact by (simpl; lia). cbn [obind expect Ascii.eqb Bool.eqb].
  rewrite take_digits_pad_exact
    by (simpl; Z.to_euclidean_division_equations; lia).
  cbn [obind expect Ascii.eqb Bool.eqb].
  rewrite take_digits_pad_exact
    by (simpl; Z.to_euclidean_division_equations; lia).
  cbn [obind expect Ascii.eqb Bool.eqb].
  rewrite take_digits_pad_exact
    by (simpl; Z.to_euclidean_division_equations; lia).
  cbn [obind expect Ascii.eqb Bool.eqb].
  rewrite take_digits_pad_exact
    by (simpl; Z.to_euclidean_division_equations; lia).
  cbn [obind expect Ascii.eqb Bool.eqb parse_offset].
  replace ((1 <=? m) && (m <=? 12) && (1 <=? d) && (d <=? 31)
           && (ms / 3600000 <=? 23) && (ms / 60000 mod 60 <=? 59)
           && (ms / 1000 mod 60 <=? 59)) with true.
  - rewrite Hdays. f_equal. rewrite Ems. unfold msPerDay.
    Z.to_euclidean_division_equations. lia.
  - symmetry. repeat (apply andb_true_iff; split); apply Z.leb_le;
      try lia; Z.to_euclidean_division_equations; lia.
Qed.

Lemma append_assoc (a b c : string) : ((a ++ b) ++ c = a ++ (b ++ c))%string.
Proof. induction a as [| x a IH]; simpl; [reflexivity | rewrite IH; reflexivity]. Qed.

Lemma stringify_payload (c : CommandType) (now : TimeValue) :
  JSON_stringify (mkMqttPayload (CommandType_value c) (toISOString now))
  = ("{" ++ dq ++ "command" ++ dq ++ ":" ++ dq ++ CommandType_value c ++ dq
     ++ "," ++ dq ++ "timestamp" ++ dq ++ ":" ++ dq ++ toISOString now ++ dq ++ "}")%string.
Proof.
  unfold JSON_stringify, JSON_quote; cbn [payload_command payload_timestamp].
  rewrite quote_toISOString, !append_assoc. destruct c; reflexivity.
Qed.

(** C9. The message [sendControlCommand] hands to the broker client goes
    to the topic greenhouse/control/ followed by the device identifier,
    and its payload is the JSON text of an object with the two
    properties command, the requested ON or OFF, and timestamp, the
    YYYY-MM-DDTHH:mm:ss.sssZ text of the instant read from the clock,
    which reads back as that instant while the year has four digits.  An
    invocation publishes at most that one message, and does publish it
    when its insert reaches the database and the client takes the
    message. *)
Theorem C9_topic_and_payload (data : DeviceControlData) (w : World) :
  let topic := ("greenhouse/control/" ++ dcd_device_id data)%string in
  let payload (now : TimeValue) :=
    ("{" ++ dq ++ "command" ++ dq ++ ":" ++ dq ++ CommandType_value (dcd_command data) ++ dq
     ++ "," ++ dq ++ "timestamp" ++ dq ++ ":" ++ dq ++ toISOString now ++ dq ++ "}")%string
  in
  let w' := snd (run (sendControlCommand data) w) in
  (forall now,
     JSON_stringify (mkMqttPayload (CommandType_value (dcd_command data)) (toISOString now))
       = payload now
     /\ iso8601_utc_shape (toISOString now) = true
     /\ (0 <= year_of now <= 9999 -> iso_parse (toISOString now) = Some now))
  /\ (published w' = published w
      \/ exists now, published w' = (topic, payload now) :: published w)
  /\ (hd None (db_faults w) = None ->
      publish_raises w = None ->
      exists now, published w' = (topic, payload now) :: published w).
Proof.
  intros topic payload w'. split; [| split].
  - intro now. split; [apply stringify_payload |].
    split; [apply toISOString_shape | apply toISOString_parses].
  - subst w'. destruct w as [sr dc nu faults clk cl pub].
    destruct faults as [| [m1 |] [| [m2 |] [| [m3 |] faults]]];
      destruct cl as [[conn [[m | v] |]] |]; simpl;
      unfold db_call, db_saveCommand, db_insertCommand, next_fault, tick; simpl;
      repeat match goal with
             | |- context [find ?f ?l] => destruct (find f l)
             end; simpl;
      first [ left; reflexivity
            | right; eexists; rewrite stringify_payload; reflexivity ].
  - subst w'. destruct w as [sr dc nu faults clk cl pub].
    unfold publish_raises; simpl. intros Hf Hp.
    destruct cl as [[conn [e |]] |]; try discriminate Hp.
    destruct faults as [| [m1 |] [| [m2 |] [| [m3 |] faults]]]; try discriminate Hf;
      simpl; unfold db_call, db_saveCommand, db_insertCommand, next_fault, tick; simpl;
      repeat match goal with
             | |- context [find ?f ?l] => destruct (find f l)
             end; simpl;
      eexists; rewrite stringify_payload; reflexivity.
Qed.

Lemma C9_topic_and_payload_witness :
  hd None (db_faults fresh_world) = None
  /\ publish_raises fresh_world = None
  /\ published (snd (run (sendControlCommand sample_command) fresh_world))
     = [("greenhouse/control/greenhouse-01",
         ("{" ++ dq ++ "command" ++ dq ++ ":" ++ dq ++ "ON" ++ dq ++ "," ++ dq ++ "timestamp"
          ++ dq ++ ":" ++ dq ++ "2025-12-26T20:00:01.240Z" ++ dq ++ "}")%string)]
  /\ 0 <= year_of 1766779201240 <= 9999
  /\ iso_parse (toISOString 1766779201240) = Some 1766779201240
  /\ exists now,
       published (snd (run (sendControlCommand sample_command) fresh_world))
       = [(("greenhouse/control/" ++ "greenhouse-01")%string,
           ("{" ++ dq ++ "command" ++ dq ++ ":" ++ dq ++ "ON" ++ dq ++ "," ++ dq
            ++ "timestamp" ++ dq ++ ":" ++ dq ++ toISOString now ++ dq ++ "}")%string)].
Proof.
  split; [reflexivity |]. split; [reflexivity |]. split; [vm_compute; reflexivity |].
  assert (Hy : 0 <= year_of 1766779201240 <= 9999) by (vm_compute; split; discriminate).
  split; [exact Hy |].
  split.
  - exact (proj2 (proj2 (proj1 (C9_topic_and_payload sample_command fresh_world)
                           1766779201240)) Hy).
  - exact (proj2 (proj2 (C9_topic_and_payload sample_command fresh_world))
             eq_refl eq_refl).
Defined.

(** * Further properties of the code *)

(** ** Device commands *)






(** X2. When the insert of the command fails in the database with
    message [m], nothing is stored and nothing is published, the clock is
    not even read for the payload, the service throws that error, and the
    controller answers 500 under the label "MQTT publish failed" with
    status "error" and [m] as message. *)
Theorem insert_failure_labelled_publish (data : DeviceControlData) (w : World)
    (m : string) (rest : list (option string)) :
  db_faults w = Some m :: rest ->
  exists w',
    run (sendControlCommand data) w = (Threw (ErrorObj m), w')
    /\ device_commands w' = device_commands w
    /\ published w' = published w
    /\ clock w' = clock w
    /\ run (DeviceController_sendControlCommand data) w
       = (Returned (mkResponse 500
                      (ErrorBody false "MQTT publish failed" (Some m) (Some "error"))),
          w').
Proof.
  intro Hf. destruct w as [sr dc nu faults clk cl pub]. simpl in Hf. subst faults.
  eexists. split; [reflexivity |]. repeat split.
Qed.

Lemma insert_failure_labelled_publish_witness :
  db_faults refused_world = [Some "connect ECONNREFUSED 127.0.0.1:5432"]
  /\ exists w',
       run (sendControlCommand sample_command) refused_world
         = (Threw (ErrorObj "connect ECONNREFUSED 127.0.0.1:5432"), w')
       /\ device_commands w' = device_commands refused_world
       /\ published w' = published refused_world
       /\ clock w' = clock refused_world
       /\ run (DeviceController_sendControlCommand sample_command) refused_world
          = (Returned (mkResponse 500
                         (ErrorBody false "MQTT publish failed"
                            (Some "connect ECONNREFUSED 127.0.0.1:5432")
                            (Some "error"))), w').
Proof.
  split; [reflexivity |].
  exact (insert_failure_labelled_publish sample_command refused_world _ _ eq_refl).
Defined.

(** X3. When the message is handed to the broker client and the write
    of status published then fails in the database with message [m],
    while the next write goes through: the message stays published, the
    row ends with status error and [m] as errorMessage, and the answer is
    500 "MQTT publish failed". *)
Theorem published_but_recorded_error (data : DeviceControlData) (w : World)
    (m : string) (rest : list (option string)) :
  db_faults w = None :: Some m :: rest ->
  hd None rest = None ->
  publish_raises w = None ->
  find (has_id (next_uuid w)) (device_commands w) = None ->
  exists w' message,
    run (sendControlCommand data) w = (Threw (ErrorObj m), w')
    /\ published w' = (("greenhouse/control/" ++ dcd_device_id data)%string, message)
                      :: published w
    /\ status_of (next_uuid w) w' = Some ERROR
    /\ errorMessage_of (next_uuid w) w' = Some m
    /\ run (DeviceController_sendControlCommand data) w
       = (Returned (mkResponse 500
                      (ErrorBody false "MQTT publish failed" (Some m) (Some "error"))),
          w').
Proof.
  intros Hf Hr Hp Hn. unfold DeviceController_sendControlCommand.
  rewrite run_try_catch, run_bind.
  destruct w as [sr dc nu faults clk cl pub]. simpl in *. subst faults.
  unfold publish_raises in Hp; simpl in Hp.
  destruct cl as [[conn [e |]] |]; try discriminate Hp.
  destruct rest as [| [m' |] rest]; try discriminate Hr;
    device_step Hn; do 2 eexists; (split; [reflexivity |]); device_step Hn;
    repeat split; reflexivity.
Qed.

Lemma published_but_recorded_error_witness :
  let w := mkWorld [] [] 1%N [None; Some "Connection terminated unexpectedly"]
                   [1766779201234; 1766779201240] (Some (mkMqttClient true None)) [] in
  publish_raises w = None
  /\ exists w' message,
       run (sendControlCommand sample_command) w
         = (Threw (ErrorObj "Connection terminated unexpectedly"), w')
       /\ published w' = [("greenhouse/control/greenhouse-01", message)]
       /\ status_of 1%N w' = Some ERROR
       /\ errorMessage_of 1%N w' = Some "Connection terminated unexpectedly"
       /\ run (DeviceController_sendControlCommand sample_command) w
          = (Returned (mkResponse 500
                         (ErrorBody false "MQTT publish failed"
                            (Some "Connection terminated unexpectedly")
                            (Some "error"))), w').
Proof.
  intro w. split; [reflexivity |].
  exact (published_but_recorded_error sample_command w _ [] eq_refl eq_refl eq_refl
           eq_refl).
Defined.



(** X5. The route POST /device-control lets a body through exactly as
    the device and command it names: a non-empty string [device_id] and a
    [command] that is the string ON or OFF reach the controller; a body
    whose [command] is anything else (another string, another case,
    missing) is answered 400 with the detail field "command" and the
    schema's message, and nothing is stored or published. *)
Theorem device_route_validation (fields : list (string * JsValue)) (w : World) :
  (forall dev c,
     get_field "device_id" fields = Some (JStr dev) ->
     dev <> EmptyString ->
     get_field "command" fields = Some (JStr (CommandType_value c)) ->
     post_device_control (JObj fields)
     = DeviceController_sendControlCommand (mkDeviceControlData dev c))
  /\ ((forall c, get_field "command" fields <> Some (JStr (CommandType_value c))) ->
      exists details,
        post_device_control (JObj fields)
        = Ret (mkResponse 400 (ValidationBody false "Validation failed" details))
        /\ In (mkDetail "command" "command must be either 'ON' or 'OFF'") details
        /\ run (post_device_control (JObj fields)) w
           = (Returned (mkResponse 400 (ValidationBody false "Validation failed" details)),
              w)).
Proof.
  split.
  - intros dev c Hd Hne Hc. unfold post_device_control, validate, deviceControlSchema.
    unfold parse_device_id, parse_command. rewrite Hd, Hc. simpl.
    destruct dev as [| a dev]; [contradiction Hne; reflexivity |].
    destruct c; reflexivity.
  - intro Hc. unfold post_device_control, validate, deviceControlSchema.
    assert (Hcmd : parse_command fields
                   = (None, [mkZodIssue "invalid_enum_value" ["command"]
                                        "command must be either 'ON' or 'OFF'"])
                   \/ parse_command fields
                      = (None, [mkZodIssue "invalid_type" ["command"]
                                           "command must be either 'ON' or 'OFF'"])).
    { unfold parse_command.
      destruct (get_field "command" fields) as [[| b | x | s | l | f] |];
        try (right; reflexivity).
      destruct (String.eqb_spec s "ON") as [-> | _];
        [exfalso; apply (Hc ON); reflexivity |].
      destruct (String.eqb_spec s "OFF") as [-> | _];
        [exfalso; apply (Hc OFF); reflexivity |].
      left; reflexivity. }
    destruct (parse_device_id fields) as [dev i1].
    assert (Hout : exists iss,
               (let '(cmd, i2) := parse_command fields in
                match dev, cmd, i1 ++ i2 with
                | Some d, Some c, [] => Parsed (mkDeviceControlData d c)
                | _, _, issues => ThrewZodError issues
                end) = ThrewZodError (i1 ++ [iss])
               /\ detail_of_issue iss
                  = mkDetail "command" "command must be either 'ON' or 'OFF'").
    { destruct Hcmd as [-> | ->]; eexists;
        (split;
         [ destruct dev as [dev |]; [destruct i1 as [| i i1] |]; reflexivity
         | reflexivity ]). }
    destruct Hout as (iss & -> & Hiss).
    eexists. split; [reflexivity |]. split; [| reflexivity].
    rewrite map_app. apply in_or_app; right. left. exact Hiss.
Qed.

Lemma device_route_validation_witness :
  let fields := [("device_id", JStr "greenhouse-01"); ("command", JStr "on")] in
  (forall c, get_field "command" fields <> Some (JStr (CommandType_value c)))
  /\ run (post_device_control (JObj fields)) fresh_world
     = (Returned
          (mkResponse 400
             (ValidationBody false "Validation failed"
                [mkDetail "command" "command must be either 'ON' or 'OFF'"])),
        fresh_world).
Proof.
  intro fields.
  assert (Hc : forall c, get_field "command" fields <> Some (JStr (CommandType_value c))).
  { intros []; discriminate. }
  split; [exact Hc |].
  destruct (proj2 (device_route_validation fields fresh_world) Hc)
    as (details & Hroute & _ & Hrun).
  vm_compute in Hroute. injection Hroute as <-. exact Hrun.
Defined.

(** ** Sensor submissions *)

Section SubmissionProperties.

Variable Date_parse : string -> JsDate.

(** Runs the database calls of a submission; [Hk] is what the existence
    check finds. *)
Ltac sensor_step Hk :=
  repeat first
    [ progress simpl
    | progress unfold db_call, db_findOne, db_saveReading, next_fault, tick,
        set_sensor_readings
    | rewrite Hk
    | rewrite (find_none_existsb _ _ Hk) ].

(** X6. In every world and for every body, the route POST /sensor-data
    answers (it never throws), leaves the commands and the published
    messages alone, and changes the readings exactly when it answers 201:
    then one row is appended, otherwise the table is as it was. *)
Theorem submission_stores_iff_201 (body : JsValue) (w : World) :
  exists resp w',
    run (post_sensor_data Date_parse body) w = (Returned resp, w')
    /\ device_commands w' = device_commands w
    /\ published w' = published w
    /\ ((http_status resp = 201
         /\ exists r, sensor_readings w' = sensor_readings w ++ [r])
        \/ (http_status resp <> 201 /\ sensor_readings w' = sensor_readings w)).
Proof.
  destruct (preconditions Date_parse body) eqn:Hpre.
  - destruct (preconditions_accepted Date_parse body Hpre) as [d Hd].
    rewrite (route_parsed Date_parse body d Hd).
    unfold createSensorData, createSensorReading, insertNewReading.
    destruct w as [sr dc nu faults clk cl pub].
    destruct (Date_parse (timestamp d)) as [t |].
    + destruct (find (same_key (device_id d) t) sr) as [r |] eqn:Hk;
        destruct faults as [| [m1 |] [| [m2 |] faults]]; sensor_step Hk;
        try (match goal with
             | |- context [character_varying_255 ?x] =>
                 destruct (character_varying_255 x) as [stored |]
             end; sensor_step Hk);
        try (match goal with
             | |- context [existsb ?f ?l] => destruct (existsb f l)
             end; sensor_step Hk);
        try match goal with
            | |- context [if ?c then Ret response_503 else _] => destruct c
            end;
        do 2 eexists; (split; [reflexivity |]); repeat split;
        first [ left; split; [reflexivity | eexists; reflexivity]
              | right; split; [discriminate | reflexivity] ].
    + assert (Hk : @None SensorReading = None) by reflexivity.
      destruct faults as [| [m1 |] faults]; sensor_step Hk;
        try match goal with
            | |- context [if ?c then Ret response_503 else _] => destruct c
            end;
        do 2 eexists; (split; [reflexivity |]); repeat split;
        (right; split; [discriminate | reflexivity]).
  - destruct (violations_rejected Date_parse body Hpre) as (issues & Hi & _).
    rewrite (route_rejected Date_parse body issues Hi).
    do 2 eexists. split; [reflexivity |]. repeat split.
    right; split; [discriminate | reflexivity].
Qed.



(** *** Every schedule of a race *)









(** *** What the controller takes for a connection error *)

Lemma prefix_spec (sub s : string) :
  String.prefix sub s = true <-> exists post, s = (sub ++ post)%string.
Proof.
  revert sub; induction s as [| b s IH]; intros [| a sub]; simpl.
  - split; [intros _; exists EmptyString; reflexivity | reflexivity].
  - split; [discriminate | intros [post H]; discriminate H].
  - split; [intros _; exists (String b s); reflexivity | reflexivity].
  - destruct (Ascii.ascii_dec a b) as [-> | Hne].
    + rewrite IH. split; intros [post H]; exists post.
      * rewrite H; reflexivity.
      * injection H as H; exact H.
    + split; [discriminate |]. intros [post H]. injection H as H _.
      contradiction Hne. symmetry; exact H.
Qed.

Lemma includes_unfold (sub s : string) :
  includes sub s
  = if String.prefix sub s then true
    else match s with
         | EmptyString => false
         | String _ rest => includes sub rest
         end.
Proof. destruct s; reflexivity. Qed.

Lemma includes_spec (sub s : string) :
  includes sub s = true <-> exists pre post, s = (pre ++ sub ++ post)%string.
Proof.
  split.
  - induction s as [| c s IH]; rewrite includes_unfold;
      destruct (String.prefix sub _) eqn:E.
    + intros _. apply prefix_spec in E. destruct E as [post E].
      exists EmptyString, post. exact E.
    + discriminate.
    + intros _. apply prefix_spec in E. destruct E as [post E].
      exists EmptyString, post. exact E.
    + intro H. destruct (IH H) as (pre & post & E').
      exists (String c pre), post. rewrite E'. reflexivity.
  - intros (pre & post & ->). induction pre as [| c pre IH]; rewrite includes_unfold.
    + assert (E : String.prefix sub (sub ++ post)%string = true)
        by (apply prefix_spec; exists post; reflexivity).
      simpl. rewrite E. reflexivity.
    + destruct (String.prefix sub _); [reflexivity | exact IH].
Qed.

(** X9. When the service throws an Error, the sensor controller answers
    503 exactly when "connect" or "Connection" occurs somewhere in its
    message, in that spelling, and 500 otherwise, whatever went wrong. *)
Theorem storage_error_by_substring (d : SensorData) (w w1 : World) (m : string) :
  run (createSensorReading Date_parse d) w = (Threw (ErrorObj m), w1) ->
  let occurs :=
    exists pre post,
      m = (pre ++ "connect" ++ post)%string \/ m = (pre ++ "Connection" ++ post)%string in
  (run (createSensorData Date_parse d) w = (Returned response_503, w1) <-> occurs)
  /\ (run (createSensorData Date_parse d) w = (Returned response_500, w1) <-> ~ occurs).
Proof.
  intros H occurs. rewrite (controller_threw Date_parse d w w1 _ H). simpl.
  assert (Hocc : occurs <-> includes "connect" m || includes "Connection" m = true).
  { unfold occurs. rewrite orb_true_iff, !includes_spec. split.
    - intros (pre & post & [E | E]); [left | right]; exists pre, post; exact E.
    - intros [(pre & post & E) | (pre & post & E)]; exists pre, post; [left | right];
        exact E. }
  destruct (includes "connect" m || includes "Connection" m).
  - split; split; try (intros; reflexivity).
    + intros _. apply Hocc. reflexivity.
    + intro E. discriminate E.
    + intro Hn. exfalso. apply Hn, Hocc. reflexivity.
  - split; split; try (intros; reflexivity).
    + intro E. discriminate E.
    + intro Ho. apply Hocc in Ho. discriminate Ho.
    + intros _ Ho. apply Hocc in Ho. discriminate Ho.
Qed.

(** *** The route with its own schema *)

Lemma humidity_schemas_agree (fields : list (string * JsValue)) :
  (forall h, get_field "humidity" fields = Some (JNum h) -> PrimFloat.ltb h 0 = false) ->
  parse_humidity fields = parse_humidity_inline fields.
Proof.
  intro H. unfold parse_humidity, parse_humidity_inline.
  destruct (get_field "humidity" fields) as [[| b | x | s | l | f] |]; try reflexivity.
  simpl. destruct (PrimFloat.is_nan x); [reflexivity |].
  unfold number_min, no_checks. rewrite (H x eq_refl). reflexivity.
Qed.

Lemma inline_runs_as_controller (d : SensorData) (w : World) :
  run (try_catch
         (existingReading <-
            perform (SensorFindOne (device_id d) (Date_parse (timestamp d))) ;;
          match existingReading with
          | Some r =>
              Ret (mkResponse 200 (SensorBody true "Record already exists" (sr_id r) r))
          | None =>
              savedReading <-
                perform (SensorSave
                           (mkSensorReadingDraft (device_id d) (Date_parse (timestamp d))
                              (temperature d) (humidity d) (battery d))) ;;
              Ret (mkResponse 201
                     (SensorBody true "New record created" (sr_id savedReading)
                                 savedReading))
          end)%prog
         (fun error => Ret (sensor_error_response error))) w
  = run (createSensorData Date_parse d) w.
Proof.
  unfold createSensorData, createSensorReading, insertNewReading, sensor_error_response.
  rewrite !run_try_catch, !run_bind, !run_perform.
  destruct (handle (SensorFindOne (device_id d) (Date_parse (timestamp d))) w)
    as [[[r |] | e] w1]; try reflexivity.
  - rewrite !run_bind, !run_perform.
    destruct (handle (SensorSave _) w1) as [[r | e] w2]; try reflexivity.
    destruct (instanceof_Error e && _); reflexivity.
  - destruct (instanceof_Error e && _); reflexivity.
Qed.

(** X10. The handler of routes/sensor.routes.ts that validates with its
    own schema answers every body as the middleware route does, and
    leaves the same world, unless the body's humidity is a number below
    0. *)
Theorem inline_route_agrees (body : JsValue) (w : World) :
  (forall fields h,
     body = JObj fields ->
     get_field "humidity" fields = Some (JNum h) ->
     PrimFloat.ltb h 0 = false) ->
  run (sensor_data_inline Date_parse body) w = run (post_sensor_data Date_parse body) w.
Proof.
  intro H.
  assert (Hs : sensorDataSchema Date_parse body = createSensorDataSchema Date_parse body).
  { destruct body as [| b | x | s | l | fields]; try reflexivity.
    unfold sensorDataSchema, createSensorDataSchema.
    rewrite (humidity_schemas_agree fields (fun h => H fields h eq_refl)). reflexivity. }
  unfold sensor_data_inline, post_sensor_data, validate. rewrite Hs.
  destruct (preconditions Date_parse body) eqn:Hpre.
  - destruct (preconditions_accepted Date_parse body Hpre) as [d ->].
    apply inline_runs_as_controller.
  - destruct (violations_rejected Date_parse body Hpre) as (issues & -> & _).
    reflexivity.
Qed.


End SubmissionProperties.



Lemma storage_error_by_substring_witness :
  run (createSensorReading iso_parse sample_data) refused_world
    = (Threw (ErrorObj "connect ECONNREFUSED 127.0.0.1:5432"),
       snd (run (createSensorReading iso_parse sample_data) refused_world))
  /\ run (createSensorData iso_parse sample_data) refused_world
     = (Returned response_503,
        snd (run (createSensorReading iso_parse sample_data) refused_world)).
Proof.
  split; [reflexivity |].
  apply (proj1 (storage_error_by_substring iso_parse sample_data refused_world _
                  "connect ECONNREFUSED 127.0.0.1:5432" eq_refl)).
  exists EmptyString, " ECONNREFUSED 127.0.0.1:5432". left. reflexivity.
Defined.

Lemma inline_route_agrees_witness :
  run (sensor_data_inline iso_parse sample_body) fresh_world
  = run (post_sensor_data iso_parse sample_body) fresh_world.
Proof.
  apply (inline_route_agrees iso_parse sample_body fresh_world).
  intros fields h E Hh. injection E as <-. injection Hh as <-. reflexivity.
Defined.


(** ** Listing the readings *)

Lemma firstn_strongly_sorted {A : Type} (R : A -> A -> Prop) (n : nat) (l : list A) :
  StronglySorted R l -> StronglySorted R (firstn n l).
Proof.
  intro H; revert n; induction H as [| a l Hl IH Ha]; intros [| n]; simpl;
    try constructor.
  - apply IH.
  - rewrite Forall_forall in *. intros x Hx. apply Ha.
    rewrite <- (firstn_skipn n l). apply in_or_app. left. exact Hx.
Qed.

Lemma firstn_before_skipn {A : Type} (R : A -> A -> Prop) (n : nat) (l : list A) :
  StronglySorted R l ->
  forall x y, In x (firstn n l) -> In y (skipn n l) -> R x y.
Proof.
  intro H; revert n; induction H as [| a l Hl IH Ha]; intros [| n] x y; simpl;
    try contradiction.
  intros [<- | Hx] Hy.
  - rewrite Forall_forall in Ha. apply Ha.
    rewrite <- (firstn_skipn n l). apply in_or_app. right. exact Hy.
  - exact (IH n x y Hx Hy).
Qed.

Lemma newer_first_transitive : Relations_1.Transitive newer_first.
Proof. intros a b c; unfold newer_first; lia. Qed.

Lemma insert_desc_perm (r : SensorReading) (l : list SensorReading) :
  Permutation (insert_desc r l) (r :: l).
Proof.
  induction l as [| x l IH]; simpl; [apply Permutation_refl |].
  destruct (sr_timestamp x <=? sr_timestamp r); [apply Permutation_refl |].
  eapply perm_trans; [apply perm_skip, IH | apply perm_swap].
Qed.

Lemma sort_desc_perm (l : list SensorReading) : Permutation (sort_desc l) l.
Proof.
  induction l as [| r l IH]; simpl; [constructor |].
  eapply perm_trans; [apply insert_desc_perm | apply perm_skip, IH].
Qed.

Lemma insert_desc_sorted (r : SensorReading) (l : list SensorReading) :
  Sorted newer_first l -> Sorted newer_first (insert_desc r l).
Proof.
  induction l as [| x l IH]; simpl; intro H.
  - repeat constructor.
  - destruct (Z.leb_spec (sr_timestamp x) (sr_timestamp r)) as [Hle | Hgt].
    + constructor; [exact H | constructor; exact Hle].
    + apply Sorted_inv in H as [Hl Hx]. constructor; [apply IH, Hl |].
      destruct l as [| y l]; simpl.
      * constructor. unfold newer_first. lia.
      * destruct (sr_timestamp y <=? sr_timestamp r).
        -- constructor. unfold newer_first. lia.
        -- constructor. apply HdRel_inv in Hx. exact Hx.
Qed.

Lemma sort_desc_sorted (l : list SensorReading) : Sorted newer_first (sort_desc l).
Proof.
  induction l as [| r l IH]; simpl; [constructor | apply insert_desc_sorted, IH].
Qed.

Section ListingProperties.

Variable pg_timestamptz : string -> option TimeValue.
Variable order_by_timestamp_desc : list SensorReading -> list SensorReading.
Variable parseInt : string -> option Z.

(** ORDER BY keeps the rows and puts them most recent first. *)
Hypothesis order_keeps_rows :
  forall l, Permutation (order_by_timestamp_desc l) l.
Hypothesis order_newest_first :
  forall l, Sorted newer_first (order_by_timestamp_desc l).

Lemma truthy_truthy (o : option string) : truthy (truthy o) = truthy o.
Proof. destruct o as [[| c s] |]; reflexivity. Qed.

(** What the listing comes to. *)
Lemma listing_unfold (query : SensorQuery) (w : World) :
  SensorController_getAllSensorReadings pg_timestamptz order_by_timestamp_desc parseInt
    query w
  = match hd None (db_faults w) with
    | Some _ => (response_list_failed, snd (next_fault w))
    | None =>
        match where_date pg_timestamptz (date_where (filters_of query)) with
        | None => (response_list_failed, snd (next_fault w))
        | Some in_range =>
            let rows :=
              order_by_timestamp_desc
                (filter in_range
                   (filter (where_deviceId (filters_of query)) (sensor_readings w))) in
            match match truthy (query_limit query) with
                  | Some limit => parseInt limit
                  | None => Some 100
                  end with
            | None => (response_list rows, snd (next_fault w))
            | Some n =>
                if n =? 0 then (response_list rows, snd (next_fault w))
                else if (n <? 0) || (bigint_max <? n)
                     then (response_list_failed, snd (next_fault w))
                     else (response_list (firstn (Z.to_nat n) rows), snd (next_fault w))
            end
        end
    end.
Proof.
  unfold SensorController_getAllSensorReadings, getAllSensorReadings, db_call, db_getMany.
  simpl. destruct (hd None (db_faults w)); [reflexivity |].
  change (date_where _) with (date_where (filters_of query)).
  destruct (where_date pg_timestamptz (date_where (filters_of query))); [| reflexivity].
  simpl.
  destruct (match truthy (query_limit query) with
            | Some limit => parseInt limit | None => Some 100 end) as [n |];
    [| reflexivity].
  destruct (n =? 0); [reflexivity |].
  destruct (n <? 0); [reflexivity |].
  destruct (bigint_max <? n); reflexivity.
Qed.

Lemma listing_ok (query : SensorQuery) (w : World) (s : bool) (c : nat)
    (data : list SensorReading) (w1 : World) :
  SensorController_getAllSensorReadings pg_timestamptz order_by_timestamp_desc parseInt
    query w = (mkListResponse 200 (ListOk s c data), w1) ->
  s = true /\ c = List.length data /\ hd None (db_faults w) = None
  /\ exists in_range,
       where_date pg_timestamptz (date_where (filters_of query)) = Some in_range
       /\ let rows :=
            order_by_timestamp_desc
              (filter in_range
                 (filter (where_deviceId (filters_of query)) (sensor_readings w))) in
          match match truthy (query_limit query) with
                | Some limit => parseInt limit
                | None => Some 100
                end with
          | None => data = rows
          | Some n =>
              if n =? 0 then data = rows
              else 0 < n <= bigint_max /\ data = firstn (Z.to_nat n) rows
          end.
Proof.
  rewrite listing_unfold. unfold response_list, response_list_failed.
  destruct (hd None (db_faults w)); [discriminate |].
  destruct (where_date pg_timestamptz (date_where (filters_of query))) as [in_range |];
    [| discriminate].
  cbv zeta.
  destruct (match truthy (query_limit query) with
            | Some limit => parseInt limit | None => Some 100 end) as [n |].
  - destruct (n =? 0) eqn:E0.
    + intro H; injection H as <- <- <- _. do 3 (split; [reflexivity |]).
      exists in_range. split; reflexivity.
    + destruct (Z.ltb_spec n 0); [discriminate |].
      destruct (Z.ltb_spec bigint_max n); [discriminate |]. simpl.
      intro H'; injection H' as <- <- <- _. do 3 (split; [reflexivity |]).
      exists in_range. split; [reflexivity |].
      apply Z.eqb_neq in E0. simpl. split; [lia | reflexivity].
  - intro H; injection H as <- <- <- _. do 3 (split; [reflexivity |]).
    exists in_range. split; reflexivity.
Qed.

Lemma rows_sorted (l : list SensorReading) :
  StronglySorted newer_first (order_by_timestamp_desc l).
Proof.
  apply Sorted_StronglySorted; [exact newer_first_transitive | apply order_newest_first].
Qed.

(** X12. Listing the readings writes nothing: the tables, the uuids and
    the messages handed to the broker are as before and one database call
    has been made. The answer is 200 with [count] the number of rows in
    [data], or the fixed 500; a failed connection gives that 500 whatever
    the driver's message says. *)
Theorem listing_reads_only (query : SensorQuery) (w : World) :
  let (resp, w1) :=
    SensorController_getAllSensorReadings pg_timestamptz order_by_timestamp_desc parseInt
      query w in
  sensor_readings w1 = sensor_readings w
  /\ device_commands w1 = device_commands w
  /\ next_uuid w1 = next_uuid w
  /\ published w1 = published w
  /\ db_faults w1 = tl (db_faults w)
  /\ ((exists data, resp = response_list data) \/ resp = response_list_failed)
  /\ (database_reachable w = false -> resp = response_list_failed).
Proof.
  rewrite listing_unfold. unfold database_reachable.
  destruct (hd None (db_faults w)).
  { simpl. repeat split; auto. }
  destruct (where_date pg_timestamptz (date_where (filters_of query))).
  2: { simpl. repeat split; auto; try discriminate. }
  cbv zeta.
  destruct (match truthy (query_limit query) with
            | Some limit => parseInt limit | None => Some 100 end) as [n |].
  2: { simpl. repeat split; eauto; try discriminate. }
  destruct (n =? 0); [simpl; repeat split; eauto; try discriminate |].
  destruct ((n <? 0) || (bigint_max <? n)); simpl; repeat split; eauto; try discriminate.
Qed.

(** X13. The rows of a 200 answer are in order of timestamp, most recent
    first, and each one is a stored reading that meets the filters of the
    query: the device asked for, not before [startDate], and not after
    [endDate] when both dates are given. [success] is true and [count] is
    the number of rows. *)
Theorem listing_newest_first (query : SensorQuery) (w : World) (s : bool) (c : nat)
    (data : list SensorReading) (w1 : World) :
  SensorController_getAllSensorReadings pg_timestamptz order_by_timestamp_desc parseInt
    query w = (mkListResponse 200 (ListOk s c data), w1) ->
  s = true /\ c = List.length data
  /\ StronglySorted newer_first data
  /\ forall r, In r data ->
       In r (sensor_readings w)
       /\ (forall deviceId, truthy (query_deviceId query) = Some deviceId ->
             sr_deviceId r = deviceId)
       /\ (forall startDate, truthy (query_startDate query) = Some startDate ->
             exists t, pg_timestamptz startDate = Some t /\ t <= sr_timestamp r)
       /\ (forall startDate endDate,
             truthy (query_startDate query) = Some startDate ->
             truthy (query_endDate query) = Some endDate ->
             exists t, pg_timestamptz endDate = Some t /\ sr_timestamp r <= t).
Proof.
  intro H. apply listing_ok in H as (-> & -> & _ & in_range & Hd & Hrows).
  split; [reflexivity |]. split; [reflexivity |].
  set (sel := filter in_range
                (filter (where_deviceId (filters_of query)) (sensor_readings w))) in *.
  assert (Hdata : StronglySorted newer_first data
                  /\ forall r, In r data -> In r sel).
  { cbv zeta in Hrows.
    assert (Hall : forall r, In r (order_by_timestamp_desc sel) -> In r sel).
    { intros r. apply Permutation_in, order_keeps_rows. }
    destruct (match truthy (query_limit query) with
              | Some limit => parseInt limit | None => Some 100 end) as [n |].
    - destruct (n =? 0).
      + subst data. split; [apply rows_sorted | exact Hall].
      + destruct Hrows as [_ ->]. split.
        * apply firstn_strongly_sorted, rows_sorted.
        * intros r Hr. apply Hall.
          rewrite <- (firstn_skipn (Z.to_nat n)). apply in_or_app. left. exact Hr.
    - subst data. split; [apply rows_sorted | exact Hall]. }
  destruct Hdata as [Hsorted Hin]. split; [exact Hsorted |].
  intros r Hr. apply Hin in Hr. unfold sel in Hr.
  apply filter_In in Hr as [Hr Hrange]. apply filter_In in Hr as [Hr Hdev].
  split; [exact Hr |]. split; [| split].
  - intros deviceId E. unfold where_deviceId in Hdev. simpl in Hdev. rewrite E in Hdev.
    apply String.eqb_eq. exact Hdev.
  - intros startDate E. unfold date_where in Hd. simpl in Hd. rewrite E in Hd.
    destruct (truthy (query_endDate query)); simpl in Hd;
      destruct (pg_timestamptz startDate) as [ta |]; try discriminate.
    + destruct (pg_timestamptz s); [| discriminate]. injection Hd as <-.
      exists ta. split; [reflexivity |].
      apply andb_prop in Hrange as [Ha _]. apply Z.leb_le. exact Ha.
    + injection Hd as <-. exists ta. split; [reflexivity |]. apply Z.leb_le. exact Hrange.
  - intros startDate endDate Es Ee. unfold date_where in Hd. simpl in Hd.
    rewrite Es, Ee in Hd. simpl in Hd.
    destruct (pg_timestamptz startDate); [| discriminate].
    destruct (pg_timestamptz endDate) as [tb |]; [| discriminate].
    injection Hd as <-. exists tb. split; [reflexivity |].
    apply andb_prop in Hrange as [_ Hb]. apply Z.leb_le. exact Hb.
Qed.

(** X14. With no [limit] in the query the cap is 100, with a [limit]
    that [parseInt] reads as a number other than 0 the cap is that
    number. A 200 answer then holds the most recent rows among those that
    meet the filters, up to the cap: the rows left out are no more recent
    than any row returned, and none is left out unless the cap is
    reached. *)
Theorem listing_limit_keeps_newest (query : SensorQuery) (w : World) (s : bool) (c : nat)
    (data : list SensorReading) (w1 : World) (cap : Z) :
  SensorController_getAllSensorReadings pg_timestamptz order_by_timestamp_desc parseInt
    query w = (mkListResponse 200 (ListOk s c data), w1) ->
  match truthy (query_limit query) with
  | Some limit => parseInt limit
  | None => Some 100
  end = Some cap ->
  cap <> 0 ->
  0 < cap
  /\ exists in_range rest,
       where_date pg_timestamptz (date_where (filters_of query)) = Some in_range
       /\ Permutation (data ++ rest)
            (filter in_range
               (filter (where_deviceId (filters_of query)) (sensor_readings w)))
       /\ (forall x y, In x data -> In y rest -> sr_timestamp y <= sr_timestamp x)
       /\ List.length data = Nat.min (Z.to_nat cap) (List.length (data ++ rest)).
Proof.
  intros H Hcap Hnz. apply listing_ok in H as (_ & _ & _ & in_range & Hd & Hrows).
  cbv zeta in Hrows. rewrite Hcap in Hrows.
  apply Z.eqb_neq in Hnz. rewrite Hnz in Hrows. destruct Hrows as [Hpos ->].
  split; [lia |].
  set (rows := order_by_timestamp_desc _).
  exists in_range, (skipn (Z.to_nat cap) rows).
  split; [exact Hd |]. rewrite firstn_skipn.
  split; [apply order_keeps_rows |]. split.
  - intros x y Hx Hy.
    exact (firstn_before_skipn newer_first _ rows (rows_sorted _) x y Hx Hy).
  - apply length_firstn.
Qed.

(** X15. A [limit] that [parseInt] reads as 0 or does not read as a
    number is no limit at all: a 200 answer then holds every stored
    reading that meets the filters, however many there are. *)
Theorem listing_without_limit (query : SensorQuery) (w : World) (s : bool) (c : nat)
    (data : list SensorReading) (w1 : World) (limit : string) :
  SensorController_getAllSensorReadings pg_timestamptz order_by_timestamp_desc parseInt
    query w = (mkListResponse 200 (ListOk s c data), w1) ->
  truthy (query_limit query) = Some limit ->
  parseInt limit = None \/ parseInt limit = Some 0 ->
  exists in_range,
    where_date pg_timestamptz (date_where (filters_of query)) = Some in_range
    /\ Permutation data
         (filter in_range
            (filter (where_deviceId (filters_of query)) (sensor_readings w))).
Proof.
  intros H Hl Hp. apply listing_ok in H as (_ & _ & _ & in_range & Hd & Hrows).
  cbv zeta in Hrows. rewrite Hl in Hrows.
  exists in_range. split; [exact Hd |].
  destruct Hp as [Hp | Hp]; rewrite Hp in Hrows; simpl in Hrows; subst data;
    apply order_keeps_rows.
Qed.


(** X17. An empty query parameter counts as absent, and an [endDate]
    without a [startDate] is ignored: the listing answers a query as it
    answers the query with those parameters taken out. *)
Theorem listing_effective_query (query : SensorQuery) (w : World) :
  SensorController_getAllSensorReadings pg_timestamptz order_by_timestamp_desc parseInt
    query w
  = SensorController_getAllSensorReadings pg_timestamptz order_by_timestamp_desc parseInt
      (effective_query query) w.
Proof.
  rewrite !listing_unfold.
  assert (Hd : date_where (filters_of (effective_query query))
               = date_where (filters_of query)).
  { unfold date_where, filters_of, effective_query. simpl. rewrite truthy_truthy.
    destruct (truthy (query_startDate query)); [| reflexivity].
    rewrite truthy_truthy. reflexivity. }
  assert (Hw : forall r, where_deviceId (filters_of (effective_query query)) r
                         = where_deviceId (filters_of query) r).
  { intro r. unfold where_deviceId, filters_of, effective_query. simpl.
    rewrite truthy_truthy. reflexivity. }
  rewrite Hd. rewrite (filter_ext _ _ Hw).
  replace (truthy (query_limit (effective_query query))) with (truthy (query_limit query))
    by (symmetry; apply truthy_truthy).
  reflexivity.
Qed.

End ListingProperties.

Lemma listing_newest_first_witness :
  let query := mkSensorQuery (Some "sensor-001") (Some "2025-12-26T20:00:00Z")
                             (Some "2025-12-26T21:00:00Z") None in
  exists data w1,
    SensorController_getAllSensorReadings iso_parse sort_desc parseInt_ascii query
      listing_world = (response_list data, w1)
    /\ map sr_id data = [3%N; 1%N]
    /\ StronglySorted newer_first data
    /\ forall r, In r data -> In r (sensor_readings listing_world).
Proof.
  intro query.
  exists (sort_desc (filter (fun r => String.eqb (sr_deviceId r) "sensor-001")
                       (sensor_readings listing_world))),
         (snd (next_fault listing_world)).
  split; [reflexivity |]. split; [reflexivity |].
  destruct (listing_newest_first iso_parse sort_desc parseInt_ascii sort_desc_perm
              sort_desc_sorted query listing_world _ _ _ _ eq_refl)
    as (_ & _ & Hsorted & Hrows).
  split; [exact Hsorted | intros r Hr; exact (proj1 (Hrows r Hr))].
Defined.

Lemma listing_limit_keeps_newest_witness :
  let query := mkSensorQuery None None None (Some "2") in
  exists data w1,
    SensorController_getAllSensorReadings iso_parse sort_desc parseInt_ascii query
      listing_world = (response_list data, w1)
    /\ parseInt_ascii "2" = Some 2
    /\ map sr_id data = [3%N; 2%N]
    /\ exists rest,
         (forall x y, In x data -> In y rest -> sr_timestamp y <= sr_timestamp x)
         /\ List.length data = Nat.min 2 (List.length (data ++ rest)).
Proof.
  intro query.
  exists (firstn 2 (sort_desc (sensor_readings listing_world))),
         (snd (next_fault listing_world)).
  split; [reflexivity |]. split; [reflexivity |]. split; [reflexivity |].
  destruct (listing_limit_keeps_newest iso_parse sort_desc parseInt_ascii sort_desc_perm
              sort_desc_sorted query listing_world _ _ _ _ 2 eq_refl eq_refl)
    as (_ & in_range & rest & _ & _ & Hnewer & Hlen); [discriminate |].
  exists rest. split; [exact Hnewer | exact Hlen].
Defined.

Lemma listing_without_limit_witness :
  let query := mkSensorQuery None None None (Some "abc") in
  exists data w1,
    SensorController_getAllSensorReadings iso_parse sort_desc parseInt_ascii query
      listing_world = (response_list data, w1)
    /\ parseInt_ascii "abc" = None
    /\ map sr_id data = [3%N; 2%N; 1%N]
    /\ exists in_range,
         Permutation data (filter in_range (sensor_readings listing_world)).
Proof.
  intro query.
  exists (sort_desc (sensor_readings listing_world)), (snd (next_fault listing_world)).
  split; [reflexivity |]. split; [reflexivity |]. split; [reflexivity |].
  destruct (listing_without_limit iso_parse sort_desc parseInt_ascii sort_desc_perm
              query listing_world _ _ _ _ "abc" eq_refl eq_refl (or_introl eq_refl))
    as (in_range & _ & Hperm).
  exists in_range. exact Hperm.
Defined.


(** ** The publish route *)

(** X18. The publish route always answers and never touches the
    database. It answers 400 when the topic or the message is missing or
    empty, and hands nothing to the broker; otherwise it answers 200 after
    handing exactly that message to the broker client, or 500 with the
    message of the error when there is no client or the client throws, and
    then nothing is recorded as published. *)
Theorem mqtt_publish_route_outcomes (topic message : option string) (w : World) :
  exists resp w1,
    run (mqtt_publish_route topic message) w = (Returned resp, w1)
    /\ sensor_readings w1 = sensor_readings w
    /\ device_commands w1 = device_commands w
    /\ db_faults w1 = db_faults w
    /\ match truthy topic, truthy message with
       | Some t, Some m =>
           match publish_raises w with
           | None =>
               resp = mkMqttRouteResponse 200
                        (MqttDone true ("Message published to topic: " ++ t)%string)
               /\ published w1 = (t, m) :: published w
           | Some e =>
               resp = mkMqttRouteResponse 500
                        (MqttFailed false (thrown_message "Failed to publish message" e))
               /\ w1 = w
           end
       | _, _ =>
           resp = mkMqttRouteResponse 400
                    (MqttFailed false "Topic and message are required")
           /\ w1 = w
       end.
Proof.
  unfold mqtt_publish_route, publish_raises, MQTTService_publish.
  destruct (truthy topic) as [t |]; [destruct (truthy message) as [m |] |];
    try (do 2 eexists; simpl; repeat split; reflexivity).
  simpl. destruct (mqtt_client w) as [c |] eqn:Ec; simpl.
  - rewrite Ec. destruct (publish_throws c) as [e |]; simpl;
      do 2 eexists; repeat split; reflexivity.
  - do 2 eexists; repeat split; reflexivity.
Qed.

(** ** The health report *)

(** X19. The health endpoint only reads: the tables, the uuids and the
    published messages are as before, and exactly one database call is
    made. Its db section carries the time between the two readings of the
    clock around the probe when the database answers, and latency 0 with
    the driver's message (left out when empty) when it does not; its mqtt
    section says why the broker counts as disconnected. *)
Theorem health_report_details (w : World) :
  exists service dbView mqttView status w1,
    run getStatus w = (Returned (mkResponse status (HealthBody service dbView mqttView)), w1)
    /\ sensor_readings w1 = sensor_readings w
    /\ device_commands w1 = device_commands w
    /\ next_uuid w1 = next_uuid w
    /\ published w1 = published w
    /\ db_faults w1 = tl (db_faults w)
    /\ dbView = match hd None (db_faults w) with
                | None => mkDbHealth Connected (hd 0 (tl (clock w)) - hd 0 (clock w)) None
                | Some m => mkDbHealth Disconnected 0 (truthy (Some m))
                end
    /\ mqttView = broker_report (mqtt_client w).
Proof.
  unfold getStatus, performHealthCheck, checkDatabase, checkMQTT, broker_report.
  destruct w as [sr dc nu faults clk client pub].
  destruct faults as [| [m |] rest]; destruct client as [[[] thr] |];
    simpl; do 5 eexists; repeat split; reflexivity.
Qed.
